(** * CTK widgets: collapsible group box, popup widget, test-plugin build file

    A shallow embedding of

    - [Libs/Widgets/ctkCollapsibleGroupBox.cpp] (the second document of
      [src/Libs/Widgets/ctkPopupWidget.h], lines 102-442),
    - the inline slot of [Libs/Widgets/ctkPopupWidget.h] (lines 1-101),
    - [Libs/PluginFramework/Testing/FrameworkTestPlugins/pluginSL3_test/CMakeLists.txt].

    The widgets are thin customisations of Qt classes.  Their own code is
    translated function by function; the part of the toolkit they call
    ([QWidget::setVisible], event delivery, geometry setters) is kept to
    the few attributes the source reads and writes, and is marked
    "toolkit" wherever it appears. *)

From Stdlib Require Import ZArith Bool List Lia.
From stdpp Require Import base option list gmap strings.

Local Open Scope Z_scope.

(** ** Toolkit vocabulary *)

Module Qt.

(** [QEvent::Type], restricted to the kinds the widgets distinguish. *)
Inductive QEventType :=
| Show | Hide | ShowToParent | HideToParent
| ChildAdded | ChildPolished | ChildRemoved
| OtherEvent.

Definition QEventType_eqb (a b : QEventType) : bool :=
  match a, b with
  | Show, Show | Hide, Hide | ShowToParent, ShowToParent
  | HideToParent, HideToParent | ChildAdded, ChildAdded
  | ChildPolished, ChildPolished | ChildRemoved, ChildRemoved
  | OtherEvent, OtherEvent => true
  | _, _ => false
  end.

(** [Qt::MouseButton]. *)
Inductive MouseButton := NoButton | LeftButton | RightButton | MidButton.

Definition MouseButton_eqb (a b : MouseButton) : bool :=
  match a, b with
  | NoButton, NoButton | LeftButton, LeftButton
  | RightButton, RightButton | MidButton, MidButton => true
  | _, _ => false
  end.

(** [QStyle::SubControl] values of a group box, as the bit masks they are. *)
Definition SC_None : Z := 0.
Definition SC_GroupBoxCheckBox : Z := 1.
Definition SC_GroupBoxLabel : Z := 2.
Definition SC_GroupBoxContents : Z := 4.
Definition SC_GroupBoxFrame : Z := 8.

Definition QWIDGETSIZE_MAX : Z := 16777215.

Record QSize := mkSize { width : Z; height : Z }.

Record QPoint := mkPoint { px : Z; py : Z }.

(** The three widget attributes the group box tests or sets. *)
Inductive WidgetAttribute :=
| WA_WState_Created | WA_WState_Hidden | WA_WState_ExplicitShowHide.

Record Attributes := mkAttrs {
  created : bool;
  hidden : bool;
  explicitShowHide : bool
}.

Definition testAttribute (a : WidgetAttribute) (w : Attributes) : bool :=
  match a with
  | WA_WState_Created => created w
  | WA_WState_Hidden => hidden w
  | WA_WState_ExplicitShowHide => explicitShowHide w
  end.

Definition setAttribute (a : WidgetAttribute) (on : bool) (w : Attributes)
  : Attributes :=
  match a with
  | WA_WState_Created => mkAttrs on (hidden w) (explicitShowHide w)
  | WA_WState_Hidden => mkAttrs (created w) on (explicitShowHide w)
  | WA_WState_ExplicitShowHide => mkAttrs (created w) (hidden w) on
  end.

(** What the toolkit knows about the parent chain of the group box when
    [QWidget::setVisible(true)] runs on it: the native window is created
    only under a created parent, and the children are shown only under a
    visible one (a top-level box counts as [ParentVisible]). *)
Inductive ParentState := ParentNotCreated | ParentCreated | ParentVisible.

End Qt.

(** ** ctkCollapsibleGroupBox *)

Module GroupBox.
Import Qt.

(** A [QObject] child of the group box.  [visibilityToParent] is the
    dynamic property of that name: [None] is the invalid [QVariant],
    [Some b] a boolean one.  [filtered] records that the group box is
    installed as an event filter of the child. *)
Record Child := mkChild {
  isWidgetType : bool;
  attrs : Attributes;
  visibilityToParent : option bool;
  filtered : bool
}.

(** The group box [q] together with its private part [d]
    ([ctkCollapsibleGroupBoxPrivate], lines 161-185).  Children are
    addressed by their position in [children()]. *)
Record State := mkState {
  (* QGroupBox / QWidget *)
  checkable : bool;
  checked : bool;
  toggled_expand : bool;      (* toggled(bool) is connected to expand(bool) *)
  qattrs : Attributes;
  size : QSize;
  maximumHeight : Z;
  children : list Child;
  (* ctkCollapsibleGroupBoxPrivate *)
  OldSize : QSize;
  MaxHeight : Z;
  ForcingVisibility : bool;
  IsStateCreated : bool
}.

(** *** Outcomes

    The source calls back into itself through the toolkit's event
    delivery, so every operation carries a budget of nested
    [setChildVisibility] activations.  [Exhausted] is the budget running
    out; [NullWidget] is the dereference of a child pointer that is null
    or that [qobject_cast<QWidget*>] turned into null. *)
Inductive outcome (A : Type) :=
| Returned (a : A)
| Exhausted
| NullWidget.
Arguments Returned {A} a.
Arguments Exhausted {A}.
Arguments NullWidget {A}.

#[export] Instance outcome_ret : MRet outcome := fun A a => Returned a.
#[export] Instance outcome_bind : MBind outcome := fun A B k m =>
  match m with
  | Returned a => k a
  | Exhausted => Exhausted
  | NullWidget => NullWidget
  end.

(** *** Field updates *)

Definition set_attrs (a : Attributes) (c : Child) : Child :=
  mkChild (isWidgetType c) a (visibilityToParent c) (filtered c).

Definition setProperty (v : bool) (c : Child) : Child :=
  mkChild (isWidgetType c) (attrs c) (Some v) (filtered c).

Definition installEventFilter (c : Child) : Child :=
  mkChild (isWidgetType c) (attrs c) (visibilityToParent c) true.

Definition set_children (l : list Child) (s : State) : State :=
  mkState (checkable s) (checked s) (toggled_expand s) (qattrs s) (size s)
    (maximumHeight s) l (OldSize s) (MaxHeight s) (ForcingVisibility s)
    (IsStateCreated s).

Definition set_child (i : nat) (c : Child) (s : State) : State :=
  set_children (<[i:=c]> (children s)) s.

Definition set_ForcingVisibility (b : bool) (s : State) : State :=
  mkState (checkable s) (checked s) (toggled_expand s) (qattrs s) (size s)
    (maximumHeight s) (children s) (OldSize s) (MaxHeight s) b
    (IsStateCreated s).

Definition set_IsStateCreated (b : bool) (s : State) : State :=
  mkState (checkable s) (checked s) (toggled_expand s) (qattrs s) (size s)
    (maximumHeight s) (children s) (OldSize s) (MaxHeight s)
    (ForcingVisibility s) b.

Definition set_OldSize (z : QSize) (s : State) : State :=
  mkState (checkable s) (checked s) (toggled_expand s) (qattrs s) (size s)
    (maximumHeight s) (children s) z (MaxHeight s) (ForcingVisibility s)
    (IsStateCreated s).

Definition set_MaxHeight (h : Z) (s : State) : State :=
  mkState (checkable s) (checked s) (toggled_expand s) (qattrs s) (size s)
    (maximumHeight s) (children s) (OldSize s) h (ForcingVisibility s)
    (IsStateCreated s).

Definition set_qattrs (a : Attributes) (s : State) : State :=
  mkState (checkable s) (checked s) (toggled_expand s) a (size s)
    (maximumHeight s) (children s) (OldSize s) (MaxHeight s)
    (ForcingVisibility s) (IsStateCreated s).

Definition set_checked (b : bool) (s : State) : State :=
  mkState (checkable s) b (toggled_expand s) (qattrs s) (size s)
    (maximumHeight s) (children s) (OldSize s) (MaxHeight s)
    (ForcingVisibility s) (IsStateCreated s).

Definition set_geometry (z : QSize) (h : Z) (s : State) : State :=
  mkState (checkable s) (checked s) (toggled_expand s) (qattrs s) z h
    (children s) (OldSize s) (MaxHeight s) (ForcingVisibility s)
    (IsStateCreated s).

(** [qobject_cast<QWidget*>(child)] followed by a dereference. *)
Definition widget (i : nat) (s : State) : outcome Child :=
  match children s !! i with
  | Some c => if isWidgetType c then Returned c else NullWidget
  | None => NullWidget
  end.

(** [property("visibilityToParent").isValid() &&
     !property("visibilityToParent").toBool()] (lines 233-234). *)
Definition explicitlyHidden (c : Child) : bool :=
  match visibilityToParent c with
  | Some b => negb b
  | None => false
  end.

(** Modelled from the spec: [collapsed()] is declared in
    ctkCollapsibleGroupBox.h, which is not among the sources; the spec's
    "collapsed/expanded toggle state" of a "checkable container" is the
    negation of the check state. *)
Definition collapsed (s : State) : bool := negb (checked s).

(** *** Toolkit: event delivery and [QWidget::setVisible]

    An event sent to a child first passes the event filters installed on
    it.  The filter's boolean result only decides whether the child's own
    handler still sees the event; that handler touches none of the fields
    above. *)
Definition sendEvent (flt : nat -> QEventType -> State -> outcome (bool * State))
    (i : nat) (e : QEventType) (s : State) : outcome State :=
  match children s !! i with
  | Some c =>
      if filtered c then r ← flt i e s; mret (snd r) else mret s
  | None => NullWidget
  end.

(** [QWidget::setVisible] on child [i], as the source relies on it
    (comments at lines 219-224 and 241-243): a request that repeats the
    explicit state is dropped; otherwise [WA_WState_Hidden] follows the
    request, [WA_WState_ExplicitShowHide] is set, and the child receives
    [ShowToParent] or [HideToParent]. *)
Definition QWidget_setVisible
    (flt : nat -> QEventType -> State -> outcome (bool * State))
    (i : nat) (visible : bool) (s : State) : outcome State :=
  c ← widget i s;
  let a := attrs c in
  if testAttribute WA_WState_ExplicitShowHide a
     && eqb (testAttribute WA_WState_Hidden a) (negb visible)
  then mret s
  else
    let a := setAttribute WA_WState_Hidden (negb visible) a in
    let a := setAttribute WA_WState_ExplicitShowHide true a in
    sendEvent flt i (if visible then ShowToParent else HideToParent)
      (set_child i (set_attrs a c) s).

(** *** ctkCollapsibleGroupBoxPrivate::setChildVisibility (lines 216-250)

    [flt] is the event filter that runs while the child's visibility is
    being set. *)
Definition setChildVisibility_body
    (flt : nat -> QEventType -> State -> outcome (bool * State))
    (childWidget : nat) (s : State) : outcome State :=
  if negb (testAttribute WA_WState_Created (qattrs s)) then mret s
  else
    let s := set_ForcingVisibility true s in
    let visible := negb (collapsed s) in
    c ← widget childWidget s;
    let visible := if explicitlyHidden c then false else visible in
    s ← QWidget_setVisible flt childWidget visible s;
    c ← widget childWidget s;
    let s :=
      if negb (explicitlyHidden c)
      then set_child childWidget
             (set_attrs (setAttribute WA_WState_ExplicitShowHide false (attrs c)) c) s
      else s in
    mret (set_ForcingVisibility false s).

(** *** ctkCollapsibleGroupBox::eventFilter (lines 410-442)

    [QGroupBox::eventFilter] is [QObject::eventFilter]: it changes
    nothing and returns [false]. *)
Definition eventFilter_body
    (setChildVis : nat -> State -> outcome State)
    (child : nat) (e : QEventType) (s : State) : outcome (bool * State) :=
  if ForcingVisibility s then mret (false, s)
  else
    match e with
    | ShowToParent =>
        c ← match children s !! child with
            | Some c => mret c
            | None => NullWidget
            end;
        let s := set_child child (setProperty true c) s in
        s ← setChildVis child s;
        mret (false, s)
    | HideToParent =>
        c ← match children s !! child with
            | Some c => mret c
            | None => NullWidget
            end;
        mret (false, set_child child (setProperty false c) s)
    | _ => mret (false, s)
    end.

(** The two functions call each other through the toolkit;
    [depth] bounds the nesting of [setChildVisibility] activations. *)
Fixpoint setChildVisibility (depth : nat) (childWidget : nat) (s : State)
  : outcome State :=
  match depth with
  | O => Exhausted
  | S d =>
      setChildVisibility_body (eventFilter_body (setChildVisibility d))
        childWidget s
  end.

Definition eventFilter (depth : nat) : nat -> QEventType -> State -> outcome (bool * State) :=
  eventFilter_body (setChildVisibility depth).

(** *** Toolkit: geometry

    [setMaximumHeight] keeps the bound inside [0, QWIDGETSIZE_MAX] and
    shrinks a widget that is taller than the new bound; [resize] keeps
    the height under the bound. *)
Definition setMaximumHeight (h : Z) (s : State) : State :=
  let h := Z.min (Z.max h 0) QWIDGETSIZE_MAX in
  let z := size s in
  set_geometry (if h <? height z then mkSize (width z) h else z) h s.

Definition resize (z : QSize) (s : State) : State :=
  set_geometry
    (mkSize (Z.max (width z) 0) (Z.max (Z.min (height z) (maximumHeight s)) 0))
    (maximumHeight s) s.

(** [foreach(QObject* child, this->children())]: the loop runs over the
    positions present when it starts. *)
Fixpoint foreach (idxs : list nat) (body : nat -> State -> outcome State)
    (s : State) : outcome State :=
  match idxs with
  | [] => mret s
  | i :: rest => s' ← body i s; foreach rest body s'
  end.

Definition forWidgetChildren (f : nat -> State -> outcome State) (s : State)
  : outcome State :=
  foreach (seq 0 (length (children s)))
    (fun i s =>
       match children s !! i with
       | Some c => if isWidgetType c then f i s else mret s
       | None => mret s
       end) s.

(** *** ctkCollapsibleGroupBox::expand (lines 277-305) *)
Definition expand (depth : nat) (_expand : bool) (s : State) : outcome State :=
  let s := if negb _expand then set_OldSize (size s) s else s in
  s ← forWidgetChildren (setChildVisibility depth) s;
  if _expand
  then mret (resize (OldSize s) (setMaximumHeight (MaxHeight s) s))
  else mret (setMaximumHeight 22 (set_MaxHeight (maximumHeight s) s)).

(** *** Toolkit: [QGroupBox::setChecked] and the signal connection

    The check state changes only on a checkable box and only to a
    different value; [toggled(b)] is then emitted and reaches [expand]
    when the connection of [init] is in place. *)
Definition setChecked (depth : nat) (b : bool) (s : State) : outcome State :=
  if checkable s && negb (eqb b (checked s))
  then
    let s := set_checked b s in
    if toggled_expand s then expand depth b s else mret s
  else mret s.

(** *** Constructor and ctkCollapsibleGroupBoxPrivate::init (lines 188-214)

    [q0] is the freshly constructed [QGroupBox]; [OldSize] starts as the
    default [QSize], which is (-1, -1). *)
Definition ctkCollapsibleGroupBoxPrivate_new (q0 : State) : State :=
  mkState (checkable q0) (checked q0) (toggled_expand q0) (qattrs q0)
    (size q0) (maximumHeight q0) (children q0)
    (mkSize (-1) (-1)) 0 false false.

(** [setCheckable(true)] also checks the box; no signal is connected yet
    when it runs. *)
Definition init (depth : nat) (s : State) : outcome State :=
  let s := mkState true (checked s) (toggled_expand s) (qattrs s) (size s)
             (maximumHeight s) (children s) (OldSize s) (MaxHeight s)
             (ForcingVisibility s) (IsStateCreated s) in
  s ← setChecked depth true s;
  let s := mkState (checkable s) (checked s) true (qattrs s) (size s)
             (maximumHeight s) (children s) (OldSize s) (MaxHeight s)
             (ForcingVisibility s) (IsStateCreated s) in
  mret (set_MaxHeight (maximumHeight s) s).

Definition ctkCollapsibleGroupBox (depth : nat) (q0 : State) : outcome State :=
  init depth (ctkCollapsibleGroupBoxPrivate_new q0).

(** Toolkit: a new [QGroupBox] is not checkable, checked, hidden, not
    created, unconstrained in height and has no children. *)
Definition QGroupBox_new (z : QSize) : State :=
  mkState false true false (mkAttrs false true false) z QWIDGETSIZE_MAX []
    (mkSize (-1) (-1)) 0 false false.

(** *** ctkCollapsibleGroupBox::childEvent (lines 355-378)

    [child] is the position of [c->child()] in [children()];
    [QGroupBox::childEvent] only adjusts the enabled state. *)
Definition childEvent (depth : nat) (ty : QEventType) (child : nat) (s : State)
  : outcome State :=
  match children s !! child with
  | Some c =>
      if QEventType_eqb ty ChildAdded && isWidgetType c
      then
        let c :=
          if testAttribute WA_WState_ExplicitShowHide (attrs c)
             && testAttribute WA_WState_Hidden (attrs c)
          then setProperty false c else c in
        let c := installEventFilter c in
        setChildVisibility depth child (set_child child c s)
      else mret s
  | None => mret s
  end.

(** Toolkit: [QObject::setParent] appends the child to [children()] and
    sends [ChildAdded] to the parent.  The value is the state in which
    [childEvent] returns; for a widget the rest of [QWidget::setParent]
    is [afterChildAdded] below. *)
Definition addChild (depth : nat) (c : Child) (s : State) : outcome State :=
  childEvent depth ChildAdded (length (children s))
    (set_children (children s ++ [c]) s).

(** *** Toolkit: [QGroupBox::setVisible]

    A request that repeats the explicit state is dropped.  Showing
    creates the native window under a created parent and, under a
    visible parent, calls [show()] on every child widget that is neither
    hidden nor explicitly shown (lines 384-387: "will eventually call
    QWidget::showChildren()").  Hiding leaves the children's attributes
    alone. *)
Definition QGroupBox_setVisible
    (flt : nat -> QEventType -> State -> outcome (bool * State))
    (show : bool) (env : ParentState) (s : State) : outcome State :=
  let a := qattrs s in
  if testAttribute WA_WState_ExplicitShowHide a
     && eqb (testAttribute WA_WState_Hidden a) (negb show)
  then mret s
  else
    let a := setAttribute WA_WState_Hidden (negb show) a in
    let a := setAttribute WA_WState_ExplicitShowHide true a in
    if show then
      let a := match env with
               | ParentNotCreated => a
               | _ => setAttribute WA_WState_Created true a
               end in
      let s := set_qattrs a s in
      match env with
      | ParentVisible =>
          forWidgetChildren
            (fun i s =>
               c ← widget i s;
               if testAttribute WA_WState_Hidden (attrs c)
                  || testAttribute WA_WState_ExplicitShowHide (attrs c)
               then mret s
               else QWidget_setVisible flt i true s) s
      | _ => mret s
      end
    else mret (set_qattrs a s).

(** *** ctkCollapsibleGroupBox::setVisible (lines 381-407) *)
Definition setVisible (depth : nat) (show : bool) (env : ParentState)
    (s : State) : outcome State :=
  let s := set_ForcingVisibility true s in
  s ← QGroupBox_setVisible (eventFilter depth) show env s;
  let s := set_ForcingVisibility false s in
  if negb (IsStateCreated s) && testAttribute WA_WState_Created (qattrs s)
  then
    let s := set_IsStateCreated true s in
    forWidgetChildren (setChildVisibility depth) s
  else mret s.

(** *** Mouse handlers of the build for Qt before 4.6 (lines 322-350) *)

Record QMouseEvent := mkMouse {
  button : MouseButton;
  pos : QPoint;
  accepted : bool
}.

Definition ignore (e : QMouseEvent) : QMouseEvent :=
  mkMouse (button e) (pos e) false.

Record QStyleOptionGroupBox := mkOption {
  subControls : Z;
  activeSubControls : Z
}.

(** C++ [!x] on an enumerator: [1] for zero, [0] otherwise. *)
Definition logical_not (x : Z) : Z := if x =? 0 then 1 else 0.

Definition mousePressEvent (event : QMouseEvent) (s : State)
  : QMouseEvent * State :=
  if negb (MouseButton_eqb (button event) LeftButton)
  then (ignore event, s)
  else (event, s).

Section Style.
(** Toolkit: [initStyleOption] and the style's
    [hitTestComplexControl(CC_GroupBox, ...)] are left open. *)
Variable initStyleOption : State -> QStyleOptionGroupBox.
Variable hitTestComplexControl : QStyleOptionGroupBox -> QPoint -> State -> Z.

Definition mouseReleaseEvent (depth : nat) (event : QMouseEvent) (s : State)
  : outcome (QMouseEvent * State) :=
  if negb (MouseButton_eqb (button event) LeftButton)
  then mret (ignore event, s)
  else
    let box := initStyleOption s in
    let box := mkOption (subControls box)
                 (Z.land (activeSubControls box)
                    (logical_not SC_GroupBoxCheckBox)) in
    let released := hitTestComplexControl box (pos event) s in
    let toggle := checkable s
                  && ((released =? SC_GroupBoxLabel)
                      || (released =? SC_GroupBoxCheckBox)) in
    if toggle
    then s ← setChecked depth (negb (checked s)) s; mret (event, s)
    else mret (event, s).
End Style.

(** *** What can happen to a group box

    The calls the application and the toolkit make on the box and on its
    children, one after the other.  [AddChild] is the delivery of
    [ChildAdded] for a new child and ends when [childEvent] returns. *)
Inductive Op :=
| CallSetChecked (b : bool)
| CallExpand (b : bool)
| CallSetVisible (show : bool) (env : ParentState)
| ToolkitCreate
| AddChild (c : Child)
| ChildSetVisible (i : nat) (visible : bool).

Definition step (depth : nat) (op : Op) (s : State) : outcome State :=
  match op with
  | CallSetChecked b => setChecked depth b s
  | CallExpand b => expand depth b s
  | CallSetVisible show env => setVisible depth show env s
  | ToolkitCreate =>
      mret (set_qattrs (setAttribute WA_WState_Created true (qattrs s)) s)
  | AddChild c => addChild depth c s
  | ChildSetVisible i visible =>
      QWidget_setVisible (eventFilter depth) i visible s
  end.

Fixpoint run (depth : nat) (ops : list Op) (s : State) : outcome State :=
  match ops with
  | [] => mret s
  | op :: rest => s' ← step depth op s; run depth rest s'
  end.

(** The guard of line 395, evaluated on the state [setVisible] has when
    it reaches it; the deferred fix-up runs exactly when it holds.
    [fixups] counts the steps of a run at which it does. *)
Definition fixupGuard (depth : nat) (show : bool) (env : ParentState)
    (s : State) : bool :=
  match QGroupBox_setVisible (eventFilter depth) show env
          (set_ForcingVisibility true s) with
  | Returned s' =>
      negb (IsStateCreated s') && testAttribute WA_WState_Created (qattrs s')
  | _ => false
  end.

Fixpoint fixups (depth : nat) (ops : list Op) (s : State) : nat :=
  match ops with
  | [] => O
  | op :: rest =>
      (match op with
       | CallSetVisible show env =>
           if fixupGuard depth show env s then 1%nat else 0%nat
       | _ => 0%nat
       end
       + match step depth op s with
         | Returned s' => fixups depth rest s'
         | _ => 0%nat
         end)%nat
  end.

(** What [setChildVisibility] leaves of a widget child in a created box
    (used to state results). *)
Definition forced (isCollapsed : bool) (c : Child) : Child :=
  if isWidgetType c
  then set_attrs
         (mkAttrs (created (attrs c)) (explicitlyHidden c || isCollapsed)
            (explicitlyHidden c)) c
  else c.

Definition isHidden (c : Child) : bool :=
  testAttribute WA_WState_Hidden (attrs c).

(** The state after [setChildVisibility] has run on every widget child,
    in the order of [children()]. *)
Definition forcedAll (s : State) : State :=
  if testAttribute WA_WState_Created (qattrs s)
  then set_ForcingVisibility
         (if existsb isWidgetType (children s) then false
          else ForcingVisibility s)
         (set_children (map (forced (collapsed s)) (children s)) s)
  else s.

(** What the toolkit's [showChildren] leaves of a child. *)
Definition shownByParent (c : Child) : Child :=
  if isWidgetType c
     && negb (testAttribute WA_WState_Hidden (attrs c)
              || testAttribute WA_WState_ExplicitShowHide (attrs c))
  then set_attrs (mkAttrs (created (attrs c)) false true) c
  else c.

(** The toolkit keeps a widget's size non-negative and its height under
    the maximum height, itself at most [QWIDGETSIZE_MAX]. *)
Definition geometry_ok (s : State) : Prop :=
  0 <= width (size s)
  /\ 0 <= height (size s) <= maximumHeight s
  /\ maximumHeight s <= QWIDGETSIZE_MAX.

(** Child [i] has been hidden by the user: the property is valid and
    false, and the child is hidden. *)
Definition keptHidden (i : nat) (s : State) : Prop :=
  exists c, children s !! i = Some c
            /\ visibilityToParent c = Some false
            /\ isHidden c = true.

(** States used in the examples: a constructed box of size 300 x 200
    with the given children, created or not, checked or not. *)
Definition exampleBox (isCreated isChecked : bool) (l : list Child) : State :=
  mkState true isChecked true (mkAttrs isCreated (negb isCreated) isCreated)
    (mkSize 300 200) QWIDGETSIZE_MAX l (mkSize (-1) (-1)) QWIDGETSIZE_MAX
    false isCreated.

(** A widget child that was never shown or hidden explicitly, and one
    the user has hidden; both carry the event filter. *)
Definition plainChild : Child :=
  mkChild true (mkAttrs false false false) None true.

Definition userHiddenChild : Child :=
  mkChild true (mkAttrs false true true) (Some false) true.

(** *** ctkCollapsibleGroupBoxStyle::drawPrimitive (lines 137-154)

    The proxy style of the build for Qt 4.6 and later.  [widget] is the
    result of [qobject_cast<const QGroupBox*>(widget)]: [None] for a null
    pointer or a widget that is not a group box.  The function ends in
    one call of [QProxyStyle::drawPrimitive]; the value is the element
    that call is given. *)
Inductive PrimitiveElement :=
| PE_IndicatorCheckBox
| PE_IndicatorArrowDown
| PE_IndicatorArrowRight
| PE_Other (code : Z).

Definition drawPrimitive (pe : PrimitiveElement) (widget : option State)
  : PrimitiveElement :=
  match pe with
  | PE_IndicatorCheckBox =>
      match widget with
      | Some groupBox =>
          if checked groupBox then PE_IndicatorArrowDown
          else PE_IndicatorArrowRight
      | None => pe
      end
  | _ => pe
  end.

(** A child follows the box: a widget child carries the event filter
    and, once the deferred pass has run ([latched]), is hidden exactly
    when the user has hidden it or the box is collapsed. *)
Definition tracks (latched isCollapsed : bool) (c : Child) : bool :=
  negb (isWidgetType c)
  || (filtered c
      && (negb latched
          || eqb (isHidden c) (explicitlyHidden c || isCollapsed))).

(** The state of a box between two calls: the flag is down, [toggled]
    reaches [expand], a latched box is created, and every child follows
    the box. *)
Definition boxInvariant (s : State) : bool :=
  negb (ForcingVisibility s)
  && toggled_expand s
  && (negb (IsStateCreated s) || testAttribute WA_WState_Created (qattrs s))
  && forallb (tracks (IsStateCreated s) (collapsed s)) (children s).

(** [expand] is a slot; [viaSignal] holds of the calls that reach it
    only through [toggled]. *)
Definition viaSignal (op : Op) : bool :=
  match op with
  | CallExpand _ => false
  | _ => true
  end.

(** The geometry of a box [s] that started from [s0] and has only been
    toggled since: expanded, it has the size and the maximum height of
    [s0]; collapsed, it is at most 22 high and remembers them. *)
Definition geometryKept (s0 s : State) : Prop :=
  toggled_expand s = true
  /\ if checked s
     then size s = size s0 /\ maximumHeight s = maximumHeight s0
     else maximumHeight s = 22 /\ height (size s) <= 22
          /\ OldSize s = size s0 /\ MaxHeight s = maximumHeight s0.

(** The box of the examples after its constructor has run. *)
Definition constructedBox : State :=
  mkState true true true (mkAttrs false true false) (mkSize 300 200)
    QWIDGETSIZE_MAX [] (mkSize (-1) (-1)) QWIDGETSIZE_MAX false false.

(** A widget the application has hidden before handing it to the box,
    with no filter and no property yet. *)
Definition hiddenBeforeAdded : Child :=
  mkChild true (mkAttrs false true true) None false.

(** A widget as the toolkit hands it to a parent that is not visible. *)
Definition freshChild : Child :=
  mkChild true (mkAttrs false false false) None false.

(** Toolkit: the end of [QWidget::setParent], which runs after
    [ChildAdded] has been delivered.  A child that had no window before
    ([wasCreated] false) is marked hidden under a visible parent; under
    a parent that is not visible it is marked not hidden, unless it has
    been shown or hidden explicitly. *)
Definition afterChildAdded (wasCreated parentVisible : bool) (c : Child)
  : Child :=
  if wasCreated then c
  else if parentVisible
  then set_attrs (setAttribute WA_WState_Hidden true (attrs c)) c
  else if negb (testAttribute WA_WState_ExplicitShowHide (attrs c))
  then set_attrs (setAttribute WA_WState_Hidden false (attrs c)) c
  else c.

(** Toolkit: [QWidget::setParent] giving the box a new widget child:
    [ChildAdded] is delivered, then the child's [WA_WState_Hidden] is
    settled. *)
Definition QWidget_setParent (depth : nat) (wasCreated parentVisible : bool)
    (c : Child) (s : State) : outcome State :=
  s' ← addChild depth c s;
  let i := length (children s) in
  match children s' !! i with
  | Some c' => mret (set_child i (afterChildAdded wasCreated parentVisible c') s')
  | None => NullWidget
  end.

(** The calls that give the box no new widget child. *)
Definition noNewWidget (op : Op) : bool :=
  match op with
  | AddChild c => negb (isWidgetType c)
  | _ => true
  end.

(** A child of the box that is not a widget, such as a layout. *)
Definition layoutChild : Child :=
  mkChild false (mkAttrs false false false) None false.

End GroupBox.

(** ** ctkPopupWidget *)

Module PopupWidget.

(** *** The inline slot [showPopup(bool)] (lines 89-99)

    [showPopup()] and [hidePopup()] are only declared in the header, so
    the slot is kept as the sequence of member calls it makes; [exec]
    runs such a sequence with whatever the two members do. *)
Inductive Call := CallShowPopup | CallHidePopup.

Definition showPopup_bool (show : bool) : list Call :=
  if show then [CallShowPopup] else [CallHidePopup].

Section Members.
Variable Widget : Type.
Variables showPopup hidePopup : Widget -> Widget.

Definition perform (c : Call) (this : Widget) : Widget :=
  match c with
  | CallShowPopup => showPopup this
  | CallHidePopup => hidePopup this
  end.

Definition exec (calls : list Call) (this : Widget) : Widget :=
  fold_left (fun w c => perform c w) calls this.
End Members.

(** *** The popup itself

    ctkPopupWidget.cpp is not among the sources.  What follows is taken
    from the spec's glossary ("a transient, auto-positioning overlay panel
    attached to a base widget, shown/hidden with a fade transition") and
    from the comments of the header. *)

Record QRect := mkRect { left : Z; top : Z; rwidth : Z; rheight : Z }.

Inductive Phase := Closed | Opening | Open | Closing.

(** Modelled from the spec: [ctkPopupWidgetPrivate], defined in
    ctkPopupWidget.cpp, which is not among the sources.  A popup "attached
    to a base widget" and "shown/hidden with a fade transition" has the
    base widget's geometry if there is one, the final transparency
    [Opacity] ("after opacity fading"), the current one, and the point
    the fade has reached. *)
Record Popup := mkPopup {
  BaseWidget : option QRect;
  Opacity : Z;
  alpha : Z;
  phase : Phase;
  geometry : QRect;
  isVisible : bool
}.

(** Modelled from the spec: [ctkPopupWidget::baseWidget()], only declared
    in the header: "Widget the popup is attached to". *)
Definition baseWidget (p : Popup) : option QRect := BaseWidget p.

(** Modelled from the spec: [ctkPopupWidget::setBaseWidget()], only
    declared in the header: it attaches the popup to a base widget. *)
Definition setBaseWidget (w : option QRect) (p : Popup) : Popup :=
  mkPopup w (Opacity p) (alpha p) (phase p) (geometry p) (isVisible p).

(** Modelled from the spec: [ctkPopupWidget::opacity()], only declared in
    the header: "Final transparency of the widget". *)
Definition opacity (p : Popup) : Z := Opacity p.

(** Modelled from the spec: [ctkPopupWidget::setOpacity()], only declared
    in the header: it sets the final transparency. *)
Definition setOpacity (a : Z) (p : Popup) : Popup :=
  mkPopup (BaseWidget p) a (alpha p) (phase p) (geometry p) (isVisible p).

(** Modelled from the spec: the placement computed in ctkPopupWidget.cpp,
    which is not among the sources.  "It opens right under baseWidget":
    the top left corner goes to the bottom left corner of the base
    widget. *)
Definition under (b : QRect) (g : QRect) : QRect :=
  mkRect (left b) (top b + rheight b) (rwidth g) (rheight g).

(** Modelled from the spec: [ctkPopupWidget::updatePopup()], only
    declared in the header.  The popup is "auto-positioning": it is placed
    under its base widget. *)
Definition updatePopup (p : Popup) : Popup :=
  match BaseWidget p with
  | Some b =>
      mkPopup (BaseWidget p) (Opacity p) (alpha p) (phase p)
        (under b (geometry p)) (isVisible p)
  | None => p
  end.

(** Modelled from the spec: [ctkPopupWidget::showPopup()], only declared
    in the header: "Open the popup if closed or closing". *)
Definition showPopup (p : Popup) : Popup :=
  match phase p with
  | Closed | Closing =>
      let p := updatePopup p in
      mkPopup (BaseWidget p) (Opacity p) (alpha p) Opening (geometry p) true
  | _ => p
  end.

(** Modelled from the spec: [ctkPopupWidget::hidePopup()], only declared
    in the header: "Hide the popup if open or opening". *)
Definition hidePopup (p : Popup) : Popup :=
  match phase p with
  | Open | Opening =>
      mkPopup (BaseWidget p) (Opacity p) (alpha p) Closing (geometry p)
        (isVisible p)
  | _ => p
  end.

(** Modelled from the spec: [ctkPopupWidget::animatePopup()], only
    declared in the header; one tick of the "fade transition".  The
    transparency moves by [fadeStep] towards [Opacity] while opening and
    towards 0 while closing; the popup is hidden when it gets there
    ("transient").  The duration of the fade, "around 300ms", is not
    represented. *)
Definition animatePopup (fadeStep : Z) (p : Popup) : Popup :=
  match phase p with
  | Opening =>
      let a := Z.min (alpha p + fadeStep) (Opacity p) in
      mkPopup (BaseWidget p) (Opacity p) a
        (if Opacity p <=? a then Open else Opening) (geometry p) (isVisible p)
  | Closing =>
      let a := Z.max (alpha p - fadeStep) 0 in
      if a <=? 0
      then mkPopup (BaseWidget p) (Opacity p) a Closed (geometry p) false
      else mkPopup (BaseWidget p) (Opacity p) a Closing (geometry p) (isVisible p)
  | _ => p
  end.

Fixpoint ticks (fadeStep : Z) (n : nat) (p : Popup) : Popup :=
  match n with
  | O => p
  | S n => ticks fadeStep n (animatePopup fadeStep p)
  end.

(** The popup of the examples: closed, transparent, attached to a base
    widget at (10, 20) of size 80 x 25, with final transparency 255. *)
Definition popup0 : Popup :=
  mkPopup (Some (mkRect 10 20 80 25)) 255 0 Closed (mkRect 0 0 100 60) false.

End PopupWidget.

(** ** pluginSL3_test/CMakeLists.txt *)

Module PluginSL3Test.
Local Open Scope string_scope.

(** An argument of a command: a bare word, a quoted string, or a
    variable reference [${v}] standing alone. *)
Inductive Arg := Word (s : string) | Quoted (s : string) | Ref (v : string).

Record Command := mkCmd { cname : string; cargs : list Arg }.

(** The file, command by command (comments dropped). *)
Definition CMakeLists : list Command := [
  mkCmd "project" [Word "pluginSL3_test"];
  mkCmd "set" [Word "PLUGIN_export_directive"; Quoted "pluginSL3_test_EXPORT"];
  mkCmd "set" [Word "PLUGIN_SRCS"; Word "ctkActivatorSL3.cpp"];
  mkCmd "set" [Word "PLUGIN_MOC_SRCS"; Word "ctkActivatorSL3_p.h"];
  mkCmd "set" [Word "PLUGIN_UI_FORMS"];
  mkCmd "set" [Word "PLUGIN_resources"];
  mkCmd "ctkFunctionGetTargetLibraries" [Word "PLUGIN_target_libraries"];
  mkCmd "ctkMacroBuildPlugin" [
    Word "NAME"; Ref "PROJECT_NAME";
    Word "EXPORT_DIRECTIVE"; Ref "PLUGIN_export_directive";
    Word "SRCS"; Ref "PLUGIN_SRCS";
    Word "MOC_SRCS"; Ref "PLUGIN_MOC_SRCS";
    Word "UI_FORMS"; Ref "PLUGIN_UI_FORMS";
    Word "RESOURCES"; Ref "PLUGIN_resources";
    Word "TARGET_LIBRARIES"; Ref "PLUGIN_target_libraries";
    Word "TEST_PLUGIN"]
].

(** The variables of the scope, each a list, and the invocations of
    commands the file does not define, with their expanded arguments. *)
Record Env := mkEnv {
  vars : gmap string (list string);
  invoked : list (string * list string)
}.

(** An unquoted reference expands to the elements of the list, an unset
    variable to nothing. *)
Definition expand_arg (vs : gmap string (list string)) (a : Arg) : list string :=
  match a with
  | Word s => [s]
  | Quoted s => [s]
  | Ref v => default [] (vs !! v)
  end.

Definition expand_args (vs : gmap string (list string)) (args : list Arg)
  : list string :=
  concat (map (expand_arg vs) args).

(** Commands that branch, loop, define or load. *)
Definition control_commands : list string :=
  ["if"; "elseif"; "else"; "endif"; "foreach"; "endforeach"; "while";
   "endwhile"; "function"; "endfunction"; "macro"; "endmacro"; "include";
   "find_package"; "find_library"; "load_command"; "add_subdirectory"].

Definition is_control (name : string) : bool :=
  existsb (String.eqb name) control_commands.

Section Build.
(** [ctkFunctionGetTargetLibraries] is defined in the repository's CMake
    directory, not among the sources: it stores the libraries it
    computes, [target_libraries], in the variable it is given. *)
Variable target_libraries : list string.

Definition exec (c : Command) (e : Env) : Env :=
  let args := expand_args (vars e) (cargs c) in
  if String.eqb (cname c) "project" then
    match args with
    | name :: _ => mkEnv (<["PROJECT_NAME" := [name]]> (vars e)) (invoked e)
    | [] => e
    end
  else if String.eqb (cname c) "set" then
    match args with
    | v :: [] => mkEnv (delete v (vars e)) (invoked e)
    | v :: vals => mkEnv (<[v := vals]> (vars e)) (invoked e)
    | [] => e
    end
  else if String.eqb (cname c) "ctkFunctionGetTargetLibraries" then
    match args with
    | v :: _ =>
        mkEnv (<[v := target_libraries]> (vars e))
          (invoked e ++ [(cname c, args)])
    | [] => mkEnv (vars e) (invoked e ++ [(cname c, args)])
    end
  else mkEnv (vars e) (invoked e ++ [(cname c, args)]).

Definition configure (script : list Command) : Env :=
  fold_left (fun e c => exec c e) script (mkEnv ∅ []).
End Build.

End PluginSL3Test.

(** ** Facts about the collapsible group box *)

Module GroupBoxFacts.
Import Qt GroupBox.

Ltac unfold_monad := unfold mbind, mret, outcome_bind, outcome_ret in *.

#[local] Arguments setChildVisibility : simpl never.
#[local] Arguments forWidgetChildren : simpl never.

Lemma set_children_id s : set_children (children s) s = s.
Proof. by destruct s. Qed.

Lemma set_child_id i c s : children s !! i = Some c -> set_child i c s = s.
Proof.
  intros H. unfold set_child. rewrite list_insert_id; [apply set_children_id | done].
Qed.

Lemma widget_Some i c s :
  children s !! i = Some c -> isWidgetType c = true -> widget i s = Returned c.
Proof. intros H W. unfold widget. by rewrite H, W. Qed.

(** Under [ForcingVisibility] the filter returns at once, for every
    event and whatever it would otherwise call. *)
Lemma eventFilter_body_forcing f i e s :
  ForcingVisibility s = true -> eventFilter_body f i e s = Returned (false, s).
Proof. intros H. unfold eventFilter_body. by rewrite H. Qed.

(** The toolkit's [setVisible] on a widget child while the flag is set:
    the attributes follow the request and nothing else moves. *)
Lemma QWidget_setVisible_forcing f i c v s :
  ForcingVisibility s = true ->
  children s !! i = Some c -> isWidgetType c = true ->
  QWidget_setVisible (eventFilter_body f) i v s
  = Returned (set_child i
                (set_attrs (mkAttrs (created (attrs c)) (negb v) true) c) s).
Proof.
  intros HF Hc HW. unfold QWidget_setVisible.
  rewrite (widget_Some _ _ _ Hc HW). unfold_monad. simpl.
  destruct c as [w [cr hd ex] p fl]; simpl in *.
  destruct ex; simpl.
  - destruct (eqb hd (negb v)) eqn:E.
    + apply eqb_prop in E. subst hd. by rewrite set_child_id.
    + unfold sendEvent. simpl.
      rewrite list_lookup_insert_eq by (by eapply lookup_lt_Some).
      simpl. destruct fl; [|done].
      rewrite eventFilter_body_forcing by done. done.
  - unfold sendEvent. simpl.
    rewrite list_lookup_insert_eq by (by eapply lookup_lt_Some).
    simpl. destruct fl; [|done].
    rewrite eventFilter_body_forcing by done. done.
Qed.

Lemma set_child_set_child i c1 c2 s :
  set_child i c2 (set_child i c1 s) = set_child i c2 s.
Proof. unfold set_child, set_children. simpl. by rewrite list_insert_insert_eq. Qed.

(** Closed form of the body of [setChildVisibility], whatever the filter
    would call back into: the call-back is never reached. *)
Lemma setChildVisibility_body_spec f i s :
  setChildVisibility_body (eventFilter_body f) i s =
  if negb (testAttribute WA_WState_Created (qattrs s)) then Returned s
  else match children s !! i with
       | Some c =>
           if isWidgetType c
           then Returned (set_ForcingVisibility false
                            (set_child i (forced (collapsed s) c) s))
           else NullWidget
       | None => NullWidget
       end.
Proof.
  unfold setChildVisibility_body. simpl.
  destruct (created (qattrs s)); simpl; [|done].
  destruct (children s !! i) as [c|] eqn:Hc.
  2: { unfold widget. simpl. by rewrite Hc. }
  destruct (isWidgetType c) eqn:HW.
  2: { unfold widget. simpl. by rewrite Hc, HW. }
  rewrite (widget_Some i c) by done. unfold_monad.
  rewrite (QWidget_setVisible_forcing _ i c) by done.
  unfold widget. simpl.
  rewrite list_lookup_insert_eq by (by eapply lookup_lt_Some).
  simpl. rewrite HW. unfold forced. rewrite HW.
  unfold explicitlyHidden, collapsed. simpl.
  destruct c as [w [cr hd ex] [[|]|] fl]; simpl in *;
    destruct (checked s); simpl;
    rewrite ?set_child_set_child; reflexivity.
Qed.

Lemma setChildVisibility_spec d i s :
  setChildVisibility (S d) i s =
  if negb (testAttribute WA_WState_Created (qattrs s)) then Returned s
  else match children s !! i with
       | Some c =>
           if isWidgetType c
           then Returned (set_ForcingVisibility false
                            (set_child i (forced (collapsed s) c) s))
           else NullWidget
       | None => NullWidget
       end.
Proof. apply setChildVisibility_body_spec. Qed.

Lemma forced_loop d rest : forall pre s,
  children s = pre ++ rest ->
  testAttribute WA_WState_Created (qattrs s) = true ->
  foreach (seq (length pre) (length rest))
    (fun i s =>
       match children s !! i with
       | Some c => if isWidgetType c then setChildVisibility (S d) i s else mret s
       | None => mret s
       end) s
  = Returned (set_ForcingVisibility
                (if existsb isWidgetType rest then false else ForcingVisibility s)
                (set_children (pre ++ map (forced (collapsed s)) rest) s)).
Proof.
  induction rest as [|c rest IH]; intros pre s Hch Hcr.
  - simpl. rewrite app_nil_r in *. rewrite <- Hch.
    by destruct s.
  - cbn [length seq foreach]. unfold_monad.
    assert (Hc : children s !! length pre = Some c)
      by (rewrite Hch; apply list_lookup_middle; done).
    rewrite Hc.
    destruct (isWidgetType c) eqn:HW.
    + rewrite setChildVisibility_spec, Hcr, Hc, HW. cbn [negb].
      specialize (IH (pre ++ [forced (collapsed s) c])
                    (set_ForcingVisibility false
                       (set_child (length pre) (forced (collapsed s) c) s))).
      rewrite length_app in IH. cbn [length] in IH.
      replace (length pre + 1)%nat with (S (length pre)) in IH by lia.
      rewrite IH.
      * cbn [existsb map]. rewrite HW. cbn [orb].
        unfold set_ForcingVisibility, set_child, set_children, collapsed.
        cbn. rewrite <- app_assoc. cbn.
        by destruct (existsb isWidgetType rest).
      * cbn. rewrite Hch, insert_app_r_alt by lia.
        replace (length pre - length pre)%nat with O by lia.
        cbn. by rewrite <- app_assoc.
      * done.
    + specialize (IH (pre ++ [c]) s).
      rewrite length_app in IH. cbn [length] in IH.
      replace (length pre + 1)%nat with (S (length pre)) in IH by lia.
      rewrite IH.
      * cbn [existsb map]. rewrite HW. cbn [orb].
        unfold forced at 2. rewrite HW. by rewrite <- app_assoc.
      * by rewrite Hch, <- app_assoc.
      * done.
Qed.

(** The loop over the children in [expand] and in [setVisible]. *)
Lemma forWidgetChildren_spec d s :
  forWidgetChildren (setChildVisibility (S d)) s = Returned (forcedAll s).
Proof.
  unfold forWidgetChildren, forcedAll.
  destruct (testAttribute WA_WState_Created (qattrs s)) eqn:Hcr.
  - apply (forced_loop d (children s) [] s); done.
  - assert (G : forall idxs,
               foreach idxs
                 (fun i s0 =>
                    match children s0 !! i with
                    | Some c => if isWidgetType c
                                then setChildVisibility (S d) i s0 else mret s0
                    | None => mret s0
                    end) s = Returned s).
    { induction idxs as [|i idxs IH]; [done|].
      cbn [foreach]. unfold_monad.
      destruct (children s !! i) as [c|]; [|exact IH].
      destruct (isWidgetType c); [|exact IH].
      rewrite setChildVisibility_spec, Hcr. exact IH. }
    apply G.
Qed.

(** Closed form of [expand]. *)
Lemma expand_spec d b s :
  expand (S d) b s =
  Returned
    (if b
     then let s1 := forcedAll s in
          resize (OldSize s1) (setMaximumHeight (MaxHeight s1) s1)
     else let s1 := forcedAll (set_OldSize (size s) s) in
          setMaximumHeight 22 (set_MaxHeight (maximumHeight s1) s1)).
Proof.
  unfold expand. destruct b; cbn [negb]; rewrite forWidgetChildren_spec; done.
Qed.

(** The toolkit's [showChildren] while the flag is set. *)
Lemma show_loop f rest : forall pre s,
  children s = pre ++ rest ->
  ForcingVisibility s = true ->
  foreach (seq (length pre) (length rest))
    (fun i s =>
       match children s !! i with
       | Some c =>
           if isWidgetType c
           then (c ← widget i s;
                 if testAttribute WA_WState_Hidden (attrs c)
                    || testAttribute WA_WState_ExplicitShowHide (attrs c)
                 then mret s
                 else QWidget_setVisible (eventFilter_body f) i true s)
           else mret s
       | None => mret s
       end) s
  = Returned (set_children (pre ++ map shownByParent rest) s).
Proof.
  induction rest as [|c rest IH]; intros pre s Hch HF.
  - simpl. rewrite app_nil_r in *. rewrite <- Hch. by destruct s.
  - cbn [length seq foreach]. unfold_monad.
    assert (Hc : children s !! length pre = Some c)
      by (rewrite Hch; apply list_lookup_middle; done).
    rewrite Hc.
    assert (Hlen : forall x : Child, length (pre ++ [x]) = S (length pre))
      by (intros; rewrite length_app; cbn; lia).
    destruct (isWidgetType c) eqn:HW.
    + rewrite (widget_Some _ _ _ Hc HW).
      cbn [map]. unfold shownByParent at 1. rewrite HW. cbn [andb].
      destruct (testAttribute WA_WState_Hidden (attrs c)
                || testAttribute WA_WState_ExplicitShowHide (attrs c)) eqn:E;
        cbn [negb].
      * specialize (IH (pre ++ [c]) s). rewrite Hlen in IH.
        rewrite IH; [by rewrite <- app_assoc | by rewrite Hch, <- app_assoc | done].
      * rewrite (QWidget_setVisible_forcing f _ c) by done. cbn [negb].
        set (c' := set_attrs _ c).
        specialize (IH (pre ++ [c']) (set_child (length pre) c' s)).
        rewrite Hlen in IH. rewrite IH.
        -- unfold set_child, set_children. cbn. by rewrite <- app_assoc.
        -- cbn. rewrite Hch, insert_app_r_alt by lia.
           replace (length pre - length pre)%nat with O by lia.
           cbn. by rewrite <- app_assoc.
        -- done.
    + cbn [map]. unfold shownByParent at 1. rewrite HW. cbn [andb].
      specialize (IH (pre ++ [c]) s). rewrite Hlen in IH.
      rewrite IH; [by rewrite <- app_assoc | by rewrite Hch, <- app_assoc | done].
Qed.

(** Closed form of the toolkit's [setVisible] on the box while the flag
    is set: the box's attributes follow the request, and children shown
    by the toolkit become explicitly shown. *)
Lemma QGroupBox_setVisible_forcing f show env s :
  ForcingVisibility s = true ->
  exists a l,
    QGroupBox_setVisible (eventFilter_body f) show env s
    = Returned (set_children l (set_qattrs a s))
    /\ (l = children s \/ l = map shownByParent (children s))
    /\ (created a = created (qattrs s)
        \/ (show = true /\ env <> ParentNotCreated /\ created a = true)).
Proof.
  intros HF. unfold QGroupBox_setVisible.
  destruct (testAttribute WA_WState_ExplicitShowHide (qattrs s)
            && eqb (testAttribute WA_WState_Hidden (qattrs s)) (negb show)).
  { exists (qattrs s), (children s). split; [by destruct s | auto]. }
  destruct show.
  - destruct env.
    + eexists _, (children s). split; [|split; [by left|]].
      * unfold_monad. reflexivity.
      * by left.
    + eexists _, (children s). split; [|split; [by left|]].
      * unfold_monad. reflexivity.
      * right. done.
    + eexists _, _. split; [|split; [by right|]].
      * unfold forWidgetChildren.
        apply (show_loop f (children (set_qattrs _ s)) []); done.
      * right. done.
  - eexists _, (children s). split; [|split; [by left|]].
    + unfold_monad. reflexivity.
    + by left.
Qed.

(** What [forcedAll] keeps. *)
Lemma forcedAll_frame s :
  checkable (forcedAll s) = checkable s
  /\ checked (forcedAll s) = checked s
  /\ toggled_expand (forcedAll s) = toggled_expand s
  /\ qattrs (forcedAll s) = qattrs s
  /\ size (forcedAll s) = size s
  /\ maximumHeight (forcedAll s) = maximumHeight s
  /\ OldSize (forcedAll s) = OldSize s
  /\ MaxHeight (forcedAll s) = MaxHeight s
  /\ IsStateCreated (forcedAll s) = IsStateCreated s.
Proof.
  unfold forcedAll.
  destruct (testAttribute WA_WState_Created (qattrs s)); repeat split.
Qed.

Lemma forcedAll_children s :
  children (forcedAll s) =
  if testAttribute WA_WState_Created (qattrs s)
  then map (forced (collapsed s)) (children s) else children s.
Proof.
  unfold forcedAll.
  by destruct (testAttribute WA_WState_Created (qattrs s)).
Qed.

(** Closed form of a [setVisible] call made on a child from outside the
    group box (the flag is not set). *)
Lemma child_setVisible_spec d i v c s :
  children s !! i = Some c -> isWidgetType c = true ->
  ForcingVisibility s = false ->
  QWidget_setVisible (eventFilter (S d)) i v s =
  Returned
    (if testAttribute WA_WState_ExplicitShowHide (attrs c)
        && eqb (testAttribute WA_WState_Hidden (attrs c)) (negb v)
     then s
     else
       let c1 := set_attrs (mkAttrs (created (attrs c)) (negb v) true) c in
       if filtered c then
         if v then
           let c2 := setProperty true c1 in
           if testAttribute WA_WState_Created (qattrs s)
           then set_ForcingVisibility false
                  (set_child i (forced (collapsed s) c2) s)
           else set_child i c2 s
         else set_child i (setProperty false c1) s
       else set_child i c1 s).
Proof.
  intros Hc HW HF. unfold QWidget_setVisible.
  rewrite (widget_Some _ _ _ Hc HW). unfold_monad.
  destruct (testAttribute WA_WState_ExplicitShowHide (attrs c)
            && eqb (testAttribute WA_WState_Hidden (attrs c)) (negb v));
    [done|].
  assert (Hlt : (i < length (children s))%nat) by (by eapply lookup_lt_Some).
  unfold sendEvent. cbn.
  rewrite list_lookup_insert_eq by done. cbn.
  destruct (filtered c); [|done].
  unfold eventFilter, eventFilter_body. cbn. rewrite HF.
  destruct v; cbn; rewrite list_lookup_insert_eq by done; unfold_monad.
  - rewrite set_child_set_child.
    rewrite setChildVisibility_spec. cbn.
    destruct (created (qattrs s)); cbn; [|done].
    rewrite list_lookup_insert_eq by done. cbn. rewrite HW.
    by rewrite set_child_set_child.
  - by rewrite set_child_set_child.
Qed.

(** Closed form of [setVisible] on the box. *)
Lemma setVisible_spec d show env s :
  exists a l,
    (l = children s \/ l = map shownByParent (children s))
    /\ (created a = created (qattrs s)
        \/ (show = true /\ env <> ParentNotCreated /\ created a = true))
    /\ QGroupBox_setVisible (eventFilter (S d)) show env
         (set_ForcingVisibility true s)
       = Returned (set_ForcingVisibility true (set_children l (set_qattrs a s)))
    /\ setVisible (S d) show env s =
       Returned
         (let s1 := set_ForcingVisibility false
                      (set_children l (set_qattrs a s)) in
          if negb (IsStateCreated s) && created a
          then forcedAll (set_IsStateCreated true s1)
          else s1).
Proof.
  destruct (QGroupBox_setVisible_forcing (setChildVisibility (S d)) show env
              (set_ForcingVisibility true s) eq_refl) as (a & l & E & Hl & Ha).
  exists a, l. split; [exact Hl|]. split; [exact Ha|]. split; [exact E|].
  unfold setVisible. fold (eventFilter (S d)) in E. rewrite E.
  unfold_monad. cbn.
  destruct (negb (IsStateCreated s) && created a); [|done].
  apply forWidgetChildren_spec.
Qed.

(** No step ever runs out of nesting budget. *)
Lemma step_not_exhausted d op s : step (S d) op s <> Exhausted.
Proof.
  destruct op as [b|b|show env| |c|i v]; cbn [step].
  - unfold setChecked.
    destruct (checkable s && negb (eqb b (checked s))); [|done].
    destruct (toggled_expand (set_checked b s)); [|done].
    by rewrite expand_spec.
  - by rewrite expand_spec.
  - destruct (setVisible_spec d show env s) as (a & l & _ & _ & _ & E).
    by rewrite E.
  - done.
  - unfold addChild, childEvent. cbn.
    rewrite list_lookup_middle by done.
    destruct (isWidgetType c) eqn:HW; cbn; [|done].
    rewrite setChildVisibility_spec. cbn.
    destruct (created (qattrs s)); cbn; [|done].
    rewrite list_lookup_insert_eq by (rewrite length_app; cbn; lia).
    destruct (explicitShowHide (attrs c) && hidden (attrs c)); cbn;
      by rewrite HW.
  - destruct (children s !! i) as [c|] eqn:Hc.
    2: { unfold QWidget_setVisible, widget. by rewrite Hc. }
    destruct (isWidgetType c) eqn:HW.
    2: { unfold QWidget_setVisible, widget. by rewrite Hc, HW. }
    destruct (ForcingVisibility s) eqn:HF.
    + unfold eventFilter. by rewrite (QWidget_setVisible_forcing _ i c).
    + by rewrite (child_setVisible_spec d i v c).
Qed.

Lemma run_not_exhausted d ops : forall s, run (S d) ops s <> Exhausted.
Proof.
  induction ops as [|op ops IH]; intros s; [done|].
  cbn [run]. unfold_monad.
  pose proof (step_not_exhausted d op s) as H.
  destruct (step (S d) op s); [apply IH | done | done].
Qed.

(** What [expand] keeps, and what it does to the children. *)
Lemma expand_frame d b s :
  exists s', expand (S d) b s = Returned s'
    /\ checkable s' = checkable s /\ checked s' = checked s
    /\ toggled_expand s' = toggled_expand s /\ qattrs s' = qattrs s
    /\ IsStateCreated s' = IsStateCreated s
    /\ children s' =
       if testAttribute WA_WState_Created (qattrs s)
       then map (forced (collapsed s)) (children s) else children s.
Proof.
  rewrite expand_spec. eexists; split; [reflexivity|].
  destruct b; cbv zeta.
  - pose proof (forcedAll_frame s) as (F1 & F2 & F3 & F4 & _ & _ & _ & _ & F9).
    pose proof (forcedAll_children s) as FC.
    unfold resize, setMaximumHeight, set_geometry. cbn.
    rewrite FC. done.
  - pose proof (forcedAll_frame (set_OldSize (size s) s))
      as (F1 & F2 & F3 & F4 & _ & _ & _ & _ & F9).
    pose proof (forcedAll_children (set_OldSize (size s) s)) as FC.
    unfold setMaximumHeight, set_geometry, set_MaxHeight. cbn.
    rewrite FC. done.
Qed.

(** The shape of the state after a [setVisible] call on a child: only
    that child and the flag can differ. *)
Lemma child_setVisible_shape d i v s s' :
  QWidget_setVisible (eventFilter (S d)) i v s = Returned s' ->
  exists c c' fv,
    children s !! i = Some c /\ isWidgetType c = true
    /\ s' = set_ForcingVisibility fv (set_child i c' s)
    /\ isWidgetType c' = true
    /\ (v = false -> isHidden c' = true
                     /\ (visibilityToParent c = Some false ->
                         visibilityToParent c' = Some false)).
Proof.
  intros H.
  destruct (children s !! i) as [c|] eqn:Hc.
  2: { unfold QWidget_setVisible, widget in H. by rewrite Hc in H. }
  destruct (isWidgetType c) eqn:HW.
  2: { unfold QWidget_setVisible, widget in H. by rewrite Hc, HW in H. }
  exists c.
  assert (Hst : forall fv c', ForcingVisibility s = fv ->
             set_child i c' s = set_ForcingVisibility fv (set_child i c' s))
    by (intros fv c' <-; by destruct s).
  set (c1 := set_attrs (mkAttrs (created (attrs c)) (negb v) true) c).
  destruct (ForcingVisibility s) eqn:HF.
  - unfold eventFilter in H.
    rewrite (QWidget_setVisible_forcing _ i c) in H by done.
    injection H as <-. exists c1, true.
    split; [done|]. split; [done|]. split; [by apply Hst|].
    split; [done|]. by intros ->.
  - rewrite (child_setVisible_spec d i v c) in H by done.
    cbv zeta in H. fold c1 in H.
    destruct (testAttribute WA_WState_ExplicitShowHide (attrs c)
              && eqb (testAttribute WA_WState_Hidden (attrs c)) (negb v)) eqn:E.
    { injection H as <-. exists c, false.
      split; [done|]. split; [done|].
      split; [rewrite set_child_id by done; by destruct s; cbn in *; subst|].
      split; [done|]. intros ->. apply andb_prop in E as [_ E].
      apply eqb_prop in E. done. }
    destruct (filtered c).
    + destruct v.
      * destruct (testAttribute WA_WState_Created (qattrs s));
          injection H as <-.
        -- exists (forced (collapsed s) (setProperty true c1)), false.
           split; [done|]. split; [done|]. split; [done|].
           split; [|done]. unfold forced. cbn. by rewrite HW.
        -- exists (setProperty true c1), false.
           split; [done|]. split; [done|]. split; [by apply Hst|].
           split; done.
      * injection H as <-. exists (setProperty false c1), false.
        split; [done|]. split; [done|]. split; [by apply Hst|].
        split; done.
    + injection H as <-. exists c1, false.
      split; [done|]. split; [done|]. split; [by apply Hst|].
      split; [done|]. by intros ->.
Qed.

(** The shape of the state after a child has been added. *)
Lemma addChild_spec d c s :
  addChild (S d) c s =
  let c1 := installEventFilter
              (if testAttribute WA_WState_ExplicitShowHide (attrs c)
                  && testAttribute WA_WState_Hidden (attrs c)
               then setProperty false c else c) in
  Returned
    (if isWidgetType c
     then if testAttribute WA_WState_Created (qattrs s)
          then set_ForcingVisibility false
                 (set_children (children s ++ [forced (collapsed s) c1]) s)
          else set_children (children s ++ [c1]) s
     else set_children (children s ++ [c]) s).
Proof.
  unfold addChild, childEvent. cbn.
  rewrite list_lookup_middle by done.
  destruct (isWidgetType c) eqn:HW; cbn; [|done].
  rewrite setChildVisibility_spec. cbn.
  assert (Hins : forall x y : Child,
             <[length (children s) := y]> (children s ++ [x]) = children s ++ [y]).
  { intros x y. rewrite insert_app_r_alt by lia.
    replace (length (children s) - length (children s))%nat with O by lia.
    done. }
  destruct (created (qattrs s)); cbn.
  - rewrite list_lookup_insert_eq by (rewrite length_app; cbn; lia).
    assert (W : isWidgetType
                  (installEventFilter
                     (if explicitShowHide (attrs c) && hidden (attrs c)
                      then setProperty false c else c)) = true)
      by (destruct (explicitShowHide (attrs c) && hidden (attrs c)); done).
    rewrite W. unfold set_child, set_children. cbn.
    by rewrite list_insert_insert_eq, Hins.
  - unfold set_child, set_children. cbn. by rewrite Hins.
Qed.

(** The latch [IsStateCreated] moves only when the deferred fix-up runs. *)
Lemma step_latch d op s s' :
  step (S d) op s = Returned s' ->
  IsStateCreated s' =
  IsStateCreated s
  || match op with
     | CallSetVisible show env => fixupGuard (S d) show env s
     | _ => false
     end.
Proof.
  destruct op as [b|b|show env| |c|i v]; cbn [step]; intros H;
    rewrite ?orb_false_r.
  - unfold setChecked in H.
    destruct (checkable s && negb (eqb b (checked s))); [|by injection H as <-].
    destruct (toggled_expand (set_checked b s)); [|by injection H as <-].
    destruct (expand_frame d b (set_checked b s)) as (s1 & E & F).
    rewrite E in H. injection H as <-. by destruct F as (_ & _ & _ & _ & -> & _).
  - destruct (expand_frame d b s) as (s1 & E & F).
    rewrite E in H. injection H as <-. by destruct F as (_ & _ & _ & _ & -> & _).
  - destruct (setVisible_spec d show env s) as (a & l & _ & _ & E1 & E2).
    rewrite E2 in H. injection H as <-.
    unfold fixupGuard. rewrite E1. cbn.
    destruct (negb (IsStateCreated s) && created a) eqn:G.
    + pose proof (forcedAll_frame
                    (set_IsStateCreated true
                       (set_ForcingVisibility false
                          (set_children l (set_qattrs a s)))))
        as (_ & _ & _ & _ & _ & _ & _ & _ & ->).
      cbn. by rewrite orb_true_r.
    + cbn. by rewrite orb_false_r.
  - by injection H as <-.
  - rewrite addChild_spec in H. cbv zeta in H. injection H as <-.
    destruct (isWidgetType c); [|done].
    by destruct (created (qattrs s)).
  - apply child_setVisible_shape in H as (c & c' & fv & _ & _ & -> & _).
    done.
Qed.

Lemma fixupGuard_unlatched d show env s :
  fixupGuard (S d) show env s = true -> IsStateCreated s = false.
Proof.
  unfold fixupGuard.
  destruct (setVisible_spec d show env s) as (a & l & _ & _ & E1 & _).
  rewrite E1. cbn. intros H. apply andb_prop in H as [H _].
  by apply negb_true_iff in H.
Qed.

Lemma fixups_latched d ops : forall s,
  IsStateCreated s = true -> fixups (S d) ops s = O.
Proof.
  induction ops as [|op ops IH]; intros s L; [done|].
  cbn [fixups].
  assert (G : match op with
              | CallSetVisible show env =>
                  if fixupGuard (S d) show env s then 1%nat else 0%nat
              | _ => 0%nat
              end = 0%nat).
  { destruct op; try done.
    destruct (fixupGuard (S d) show env s) eqn:E; [|done].
    apply fixupGuard_unlatched in E. congruence. }
  rewrite G. cbn.
  destruct (step (S d) op s) as [s'| |] eqn:E; [|done|done].
  apply IH. apply step_latch in E. rewrite E, L. done.
Qed.

Lemma fixups_count d ops : forall s s',
  run (S d) ops s = Returned s' ->
  IsStateCreated s = false ->
  fixups (S d) ops s = if IsStateCreated s' then 1%nat else 0%nat.
Proof.
  induction ops as [|op ops IH]; intros s s' R L.
  - cbn in R. injection R as <-. by rewrite L.
  - cbn [run] in R. unfold_monad. cbn [fixups].
    destruct (step (S d) op s) as [s1| |] eqn:E; [|done|done].
    pose proof (step_latch d op s s1 E) as HL. rewrite L in HL. cbn in HL.
    destruct op as [b|b|show env| |c|i v];
      try (cbn; apply (IH s1 s' R); by rewrite HL).
    destruct (fixupGuard (S d) show env s).
    + rewrite (fixups_latched d ops s1 HL).
      assert (L' : IsStateCreated s' = true).
      { clear -R HL. revert s1 R HL.
        induction ops as [|op ops IH]; intros s1 R HL.
        - cbn in R. by injection R as <-.
        - cbn [run] in R. unfold_monad.
          destruct (step (S d) op s1) as [s2| |] eqn:E; [|done|done].
          apply (IH s2 R). apply step_latch in E. by rewrite E, HL. }
      by rewrite L'.
    + cbn. apply (IH s1 s' R HL).
Qed.

Lemma forced_property b c :
  visibilityToParent (forced b c) = visibilityToParent c.
Proof. unfold forced. by destruct (isWidgetType c). Qed.

Lemma shownByParent_property c :
  visibilityToParent (shownByParent c) = visibilityToParent c.
Proof.
  unfold shownByParent.
  by destruct (isWidgetType c
               && negb (testAttribute WA_WState_Hidden (attrs c)
                        || testAttribute WA_WState_ExplicitShowHide (attrs c))).
Qed.

Lemma map_property_ext (g : Child -> Child) l :
  (forall c, visibilityToParent (g c) = visibilityToParent c) ->
  map visibilityToParent (map g l) = map visibilityToParent l.
Proof.
  intros H. rewrite map_map. apply map_ext. exact H.
Qed.

(** C1.  While [ForcingVisibility] is set, [eventFilter] returns [false]
    at once and changes nothing, for any event, so it neither records
    [visibilityToParent] nor forces a visibility.  Hence the [setVisible]
    that [setChildVisibility] performs never comes back into
    [setChildVisibility]: the result does not depend on what the filter
    would call, one activation always suffices, the box's own
    [setVisible] leaves every recorded property as it was, and no
    sequence of calls on the box and its children exhausts a nesting
    budget of one. *)
Theorem eventFilter_returns_while_forcing :
  (forall depth child e s,
      ForcingVisibility s = true ->
      eventFilter depth child e s = Returned (false, s))
  /\ (forall f i s,
        setChildVisibility_body (eventFilter_body f) i s
        = setChildVisibility 1 i s)
  /\ (forall d i s,
        setChildVisibility (S d) i s = setChildVisibility 1 i s
        /\ setChildVisibility 1 i s <> Exhausted)
  /\ (forall d show env s,
        exists s', setVisible (S d) show env s = Returned s'
          /\ map visibilityToParent (children s')
             = map visibilityToParent (children s))
  /\ (forall d ops s, run (S d) ops s <> Exhausted).
Proof.
  split; [|split; [|split; [|split]]].
  - intros depth child e s H. by apply eventFilter_body_forcing.
  - intros f i s. by rewrite setChildVisibility_body_spec, setChildVisibility_spec.
  - intros d i s. split.
    + by rewrite !setChildVisibility_spec.
    + rewrite setChildVisibility_spec.
      destruct (negb (testAttribute WA_WState_Created (qattrs s))); [done|].
      destruct (children s !! i) as [c|]; [|done].
      by destruct (isWidgetType c).
  - intros d show env s.
    destruct (setVisible_spec d show env s) as (a & l & Hl & _ & _ & E).
    eexists. split; [exact E|]. cbv zeta.
    assert (Hp : map visibilityToParent l = map visibilityToParent (children s)).
    { destruct Hl as [-> | ->]; [done|].
      apply map_property_ext, shownByParent_property. }
    destruct (negb (IsStateCreated s) && created a); [|exact Hp].
    rewrite forcedAll_children. cbn.
    destruct (created a); [|exact Hp].
    rewrite map_property_ext; [exact Hp|]. intros c. apply forced_property.
  - intros d ops s. apply run_not_exhausted.
Qed.

Lemma eventFilter_returns_while_forcing_witness :
  let s := set_ForcingVisibility true (exampleBox true false [plainChild]) in
  ForcingVisibility s = true
  /\ eventFilter 0 0 ShowToParent s = Returned (false, s).
Proof.
  cbv zeta. split; [reflexivity|].
  apply (proj1 eventFilter_returns_while_forcing). reflexivity.
Defined.

Lemma fixups_at_most_once d ops : forall s, (fixups (S d) ops s <= 1)%nat.
Proof.
  induction ops as [|op ops IH]; intros s; [cbn; lia|].
  cbn [fixups].
  destruct (step (S d) op s) as [s'| |] eqn:E.
  - pose proof (step_latch d op s s' E) as HL.
    destruct op as [b|b|show env| |c|i v]; try (cbn; apply IH).
    destruct (fixupGuard (S d) show env s).
    + rewrite orb_true_r in HL. rewrite (fixups_latched d ops s' HL). lia.
    + cbn. apply IH.
  - destruct op; try (cbn; lia).
    destruct (fixupGuard (S d) show env s); lia.
  - destruct op; try (cbn; lia).
    destruct (fixupGuard (S d) show env s); lia.
Qed.

(** C5.  [expand(false)] records the size in [OldSize] and, after the
    children, the maximum height in [MaxHeight], then sets the maximum
    height to 22.  [expand(true)] after it asks the toolkit for the
    recorded maximum height and the recorded size, which are the ones
    the box had before collapsing; on a box whose geometry the toolkit
    keeps in order the box then has them again. *)
Theorem expand_round_trip d s :
  exists s1 s2,
    expand (S d) false s = Returned s1
    /\ expand (S d) true s1 = Returned s2
    /\ OldSize s1 = size s
    /\ MaxHeight s1 = maximumHeight s
    /\ maximumHeight s1 = 22
    /\ MaxHeight s2 = maximumHeight s
    /\ OldSize s2 = size s
    /\ (geometry_ok s ->
        maximumHeight s2 = maximumHeight s /\ size s2 = size s).
Proof.
  eexists _, _. split; [apply expand_spec|]. split; [apply expand_spec|].
  cbv zeta.
  remember (forcedAll (set_OldSize (size s) s)) as sa eqn:Ea.
  pose proof (forcedAll_frame (set_OldSize (size s) s))
    as (_ & _ & _ & _ & A5 & A6 & A7 & A8 & _).
  rewrite <- Ea in A5, A6, A7, A8. cbn in A5, A6, A7, A8.
  remember (setMaximumHeight 22 (set_MaxHeight (maximumHeight sa) sa))
    as s1 eqn:E1.
  assert (S1 : OldSize s1 = size s /\ MaxHeight s1 = maximumHeight s
               /\ maximumHeight s1 = 22).
  { subst s1. unfold setMaximumHeight, set_geometry, set_MaxHeight. cbn.
    rewrite A6, A7. done. }
  destruct S1 as (B1 & B2 & B3).
  remember (forcedAll s1) as sb eqn:Eb.
  pose proof (forcedAll_frame s1) as (_ & _ & _ & _ & C5 & C6 & C7 & C8 & _).
  rewrite <- Eb in C5, C6, C7, C8.
  split; [done|]. split; [done|]. split; [done|].
  split; [|split].
  - unfold resize, setMaximumHeight, set_geometry. cbn. by rewrite C8.
  - unfold resize, setMaximumHeight, set_geometry. cbn. by rewrite C7.
  - intros (Hw & Hh & Hm). split.
    + unfold resize, setMaximumHeight, set_geometry. cbn.
      rewrite C8, B2. unfold QWIDGETSIZE_MAX in *. lia.
    + unfold resize, setMaximumHeight, set_geometry. cbn.
      rewrite C7, C8, B1, B2. unfold QWIDGETSIZE_MAX in *.
      destruct (size s) as [w h]. cbn in *. f_equal; lia.
Qed.

Lemma expand_round_trip_witness :
  let s := exampleBox true true [plainChild; userHiddenChild] in
  geometry_ok s
  /\ exists s1 s2,
      expand 1 false s = Returned s1 /\ expand 1 true s1 = Returned s2
      /\ maximumHeight s1 = 22
      /\ maximumHeight s2 = maximumHeight s /\ size s2 = size s.
Proof.
  cbv zeta.
  assert (G : geometry_ok (exampleBox true true [plainChild; userHiddenChild])).
  { unfold geometry_ok. cbn. unfold QWIDGETSIZE_MAX. lia. }
  split; [exact G|].
  destruct (expand_round_trip 0 (exampleBox true true [plainChild; userHiddenChild]))
    as (s1 & s2 & E1 & E2 & _ & _ & M1 & _ & _ & R).
  exists s1, s2. destruct (R G) as (R1 & R2). done.
Defined.

Lemma setChecked_toggle d s :
  checkable s = true ->
  exists s', setChecked (S d) (negb (checked s)) s = Returned s'
             /\ checked s' = negb (checked s).
Proof.
  intros Hc. unfold setChecked. rewrite Hc.
  replace (negb (eqb (negb (checked s)) (checked s))) with true
    by (by destruct (checked s)).
  cbn [andb].
  destruct (toggled_expand (set_checked (negb (checked s)) s)).
  - destruct (expand_frame d (negb (checked s)) (set_checked (negb (checked s)) s))
      as (s' & E & _ & F & _).
    exists s'. split; [exact E|]. by rewrite F.
  - eexists. split; [reflexivity|]. done.
Qed.

(** The mask of lines 316 and 341 is [!SC_GroupBoxCheckBox], which is 0:
    the active sub-controls are all cleared before the hit test. *)
Remark activeSubControls_cleared (x : Z) :
  Z.land x (logical_not SC_GroupBoxCheckBox) = 0.
Proof. unfold logical_not, SC_GroupBoxCheckBox. cbn. apply Z.land_0_r. Qed.

(** C9.  In the handlers built for Qt before 4.6, a press or a release
    of a button other than the left one ignores the event and leaves
    the box, hence its check state, as it was.  A release of the left
    button flips the check state exactly when the box is checkable and
    the style's hit test at the release position answers the label or
    the check box. *)
Theorem mouse_release_toggles
    (initStyleOption : State -> QStyleOptionGroupBox)
    (hitTestComplexControl : QStyleOptionGroupBox -> QPoint -> State -> Z)
    (d : nat) (event : QMouseEvent) (s : State) :
  (button event <> LeftButton ->
     mousePressEvent event s = (ignore event, s)
     /\ mouseReleaseEvent initStyleOption hitTestComplexControl (S d) event s
        = Returned (ignore event, s)
     /\ accepted (ignore event) = false)
  /\ (button event = LeftButton ->
      exists s',
        mouseReleaseEvent initStyleOption hitTestComplexControl (S d) event s
        = Returned (event, s')
        /\ let box := initStyleOption s in
           let released :=
             hitTestComplexControl
               (mkOption (subControls box)
                  (Z.land (activeSubControls box)
                     (logical_not SC_GroupBoxCheckBox)))
               (pos event) s in
           (checked s' = negb (checked s)
            <-> checkable s = true
                /\ (released = SC_GroupBoxLabel
                    \/ released = SC_GroupBoxCheckBox))).
Proof.
  split.
  - intros Hb. unfold mousePressEvent, mouseReleaseEvent.
    assert (E : MouseButton_eqb (button event) LeftButton = false)
      by (destruct (button event); done).
    rewrite E. done.
  - intros Hb. unfold mouseReleaseEvent. rewrite Hb. cbn [MouseButton_eqb negb].
    cbv zeta.
    set (released := hitTestComplexControl _ (pos event) s).
    destruct (checkable s) eqn:Hc; cbn [andb].
    + destruct ((released =? SC_GroupBoxLabel)
                || (released =? SC_GroupBoxCheckBox)) eqn:Hr.
      * destruct (setChecked_toggle d s Hc) as (s' & E & F).
        exists s'. unfold_monad. rewrite E. split; [done|].
        split; [|done]. intros _. split; [done|].
        apply orb_prop in Hr as [Hr | Hr]; apply Z.eqb_eq in Hr; auto.
      * exists s. split; [done|]. split.
        -- intros H. by destruct (checked s).
        -- intros (_ & [H | H]); apply Z.eqb_eq in H; rewrite H in Hr;
             apply orb_false_elim in Hr as [H1 H2]; done.
    + exists s. split; [done|]. split.
      * intros H. by destruct (checked s).
      * intros (H & _). done.
Qed.

Lemma mouse_release_toggles_witness :
  let s := exampleBox true true [plainChild] in
  let right := mkMouse RightButton (mkPoint 5 5) true in
  let left := mkMouse LeftButton (mkPoint 5 5) true in
  let hit := fun (o : QStyleOptionGroupBox) (p : QPoint) (_ : State) =>
               if py p <? 20 then SC_GroupBoxLabel else SC_GroupBoxContents in
  let init := fun _ : State => mkOption 15 3 in
  (RightButton <> LeftButton
   /\ mousePressEvent right s = (ignore right, s)
   /\ mouseReleaseEvent init hit 1 right s = Returned (ignore right, s))
  /\ exists s', mouseReleaseEvent init hit 1 left s = Returned (left, s')
                /\ checked s' = false.
Proof.
  cbv zeta. split.
  - split; [discriminate|].
    destruct (mouse_release_toggles
                (fun _ : State => mkOption 15 3)
                (fun (o : QStyleOptionGroupBox) (p : QPoint) (_ : State) =>
                   if py p <? 20 then SC_GroupBoxLabel else SC_GroupBoxContents)
                0 (mkMouse RightButton (mkPoint 5 5) true)
                (exampleBox true true [plainChild])) as [H _].
    destruct (H ltac:(discriminate)) as (H1 & H2 & _). done.
  - destruct (mouse_release_toggles
                (fun _ : State => mkOption 15 3)
                (fun (o : QStyleOptionGroupBox) (p : QPoint) (_ : State) =>
                   if py p <? 20 then SC_GroupBoxLabel else SC_GroupBoxContents)
                0 (mkMouse LeftButton (mkPoint 5 5) true)
                (exampleBox true true [plainChild])) as [_ H].
    destruct (H eq_refl) as (s' & E & I). exists s'. split; [exact E|].
    cbv zeta in I. apply I. split; [reflexivity|]. left. reflexivity.
Defined.

Lemma lookup_map (g : Child -> Child) (l : list Child) : forall i,
  map g l !! i = g <$> l !! i.
Proof.
  induction l as [|x l IH]; intros [|i]; cbn; try done.
Qed.

Lemma isHidden_forced b c :
  isWidgetType c = true -> isHidden (forced b c) = explicitlyHidden c || b.
Proof. intros H. unfold forced. by rewrite H. Qed.

(** C3 as stated fails twice over: in a box that is collapsed but whose
    window is not created yet, [expand(false)] leaves a shown child
    shown; and in a created box that is still checked, [expand(false)]
    called directly shows the children, because the loop reads the check
    state and not the argument. *)
Lemma expand_hides_every_child_counterexample :
  ~ (forall d s s',
        checked s = false ->
        expand (S d) false s = Returned s' ->
        forall i c, children s' !! i = Some c -> isWidgetType c = true ->
                    isHidden c = true)
  /\ ~ (forall d s s',
          testAttribute WA_WState_Created (qattrs s) = true ->
          expand (S d) false s = Returned s' ->
          forall i c, children s' !! i = Some c -> isWidgetType c = true ->
                      isHidden c = true).
Proof.
  split; intros H.
  - specialize (H 0%nat (exampleBox false false [plainChild]) _
                  eq_refl eq_refl 0%nat plainChild eq_refl eq_refl).
    discriminate H.
  - specialize (H 0%nat (exampleBox true true [plainChild]) _
                  eq_refl eq_refl 0%nat plainChild eq_refl eq_refl).
    discriminate H.
Qed.

(** C3, amended.  The constructor makes the box checkable and connects
    [toggled(bool)] to [expand(bool)], so a change of the check state
    runs [expand] with the new state.  In a box whose window is created
    and whose check state is the argument, [expand] goes through the
    direct children only: a child that is not a widget is left alone;
    when collapsing every child widget ends hidden; when expanding a
    child widget ends hidden exactly when its [visibilityToParent] is
    valid and false.  No property is changed.  Before the window is
    created [expand] leaves all children as they are. *)
Theorem expand_drives_child_visibility :
  (forall d q0,
      exists s0, ctkCollapsibleGroupBox (S d) q0 = Returned s0
                 /\ checkable s0 = true /\ toggled_expand s0 = true)
  /\ (forall d b s,
        checkable s = true -> toggled_expand s = true -> b <> checked s ->
        setChecked (S d) b s = expand (S d) b (set_checked b s))
  /\ (forall d b s,
        testAttribute WA_WState_Created (qattrs s) = true ->
        checked s = b ->
        exists s',
          expand (S d) b s = Returned s'
          /\ length (children s') = length (children s)
          /\ forall i c,
              children s !! i = Some c ->
              exists c',
                children s' !! i = Some c'
                /\ visibilityToParent c' = visibilityToParent c
                /\ if isWidgetType c
                   then isHidden c' = if b then explicitlyHidden c else true
                   else c' = c)
  /\ (forall d b s,
        testAttribute WA_WState_Created (qattrs s) = false ->
        exists s', expand (S d) b s = Returned s'
                   /\ children s' = children s).
Proof.
  split; [|split; [|split]].
  - intros d q0. unfold ctkCollapsibleGroupBox, init, setChecked. cbn.
    destruct (checked q0); cbn.
    + unfold_monad. eexists. split; [reflexivity|]. done.
    + destruct (toggled_expand q0).
      * match goal with
        | |- context [expand (S d) true ?s] =>
            destruct (expand_frame d true s) as (s1 & E & F1 & _ & _)
        end.
        rewrite E. unfold_monad. eexists. split; [reflexivity|]. cbn.
        by rewrite F1.
      * unfold_monad. eexists. split; [reflexivity|]. done.
  - intros d b s Hc Ht Hb. unfold setChecked. rewrite Hc. cbn.
    replace (negb (eqb b (checked s))) with true
      by (destruct b, (checked s); done).
    by rewrite Ht.
  - intros d b s Hcr Hb.
    destruct (expand_frame d b s) as (s' & E & _ & _ & _ & _ & _ & FC).
    rewrite Hcr in FC. exists s'. split; [exact E|].
    split; [by rewrite FC, length_map|].
    intros i c Hc. exists (forced (collapsed s) c).
    split; [by rewrite FC, lookup_map, Hc|].
    split; [apply forced_property|].
    destruct (isWidgetType c) eqn:HW.
    + rewrite isHidden_forced by done. unfold collapsed. rewrite Hb.
      destruct b; cbn; [apply orb_false_r | apply orb_true_r].
    + unfold forced. by rewrite HW.
  - intros d b s Hcr.
    destruct (expand_frame d b s) as (s' & E & _ & _ & _ & _ & _ & FC).
    rewrite Hcr in FC. by exists s'.
Qed.

Lemma expand_drives_child_visibility_witness :
  let s := exampleBox true false [plainChild; userHiddenChild] in
  testAttribute WA_WState_Created (qattrs s) = true
  /\ checked s = false
  /\ exists s', expand 1 false s = Returned s'
                /\ length (children s') = 2%nat.
Proof.
  cbv zeta. split; [reflexivity|]. split; [reflexivity|].
  destruct (proj1 (proj2 (proj2 expand_drives_child_visibility)) 0%nat false
              (exampleBox true false [plainChild; userHiddenChild])
              eq_refl eq_refl) as (s' & E & L & _).
  exists s'. split; [exact E | exact L].
Defined.

(** C4 as stated fails before the window is created: a widget added to
    a collapsed box is then left shown. *)
Lemma child_added_while_collapsed_counterexample :
  ~ (forall d c s s',
        collapsed s = true -> isWidgetType c = true ->
        addChild (S d) c s = Returned s' ->
        forall c', children s' !! length (children s) = Some c' ->
                   isHidden c' = true).
Proof.
  intros H.
  specialize (H 0%nat plainChild (exampleBox false false []) _
                eq_refl eq_refl eq_refl _ eq_refl).
  discriminate H.
Qed.

(** C4, amended.  On [ChildAdded] for a widget child, [childEvent]
    records [visibilityToParent = false] when the child came in
    explicitly hidden, installs the event filter, and calls
    [setChildVisibility] on the child.  In a box whose window is
    created this applies the current state, so a child added while the
    box is collapsed ends hidden; before the window is created the
    child's attributes stay as they came.  Other child events change
    nothing. *)
Theorem childEvent_child_added :
  (forall d i c s,
      children s !! i = Some c -> isWidgetType c = true ->
      childEvent (S d) ChildAdded i s =
      setChildVisibility (S d) i
        (set_child i
           (installEventFilter
              (if testAttribute WA_WState_ExplicitShowHide (attrs c)
                  && testAttribute WA_WState_Hidden (attrs c)
               then setProperty false c else c)) s))
  /\ (forall d c s,
        isWidgetType c = true ->
        exists s' c',
          addChild (S d) c s = Returned s'
          /\ children s' = children s ++ [c']
          /\ filtered c' = true
          /\ visibilityToParent c' =
             (if testAttribute WA_WState_ExplicitShowHide (attrs c)
                 && testAttribute WA_WState_Hidden (attrs c)
              then Some false else visibilityToParent c)
          /\ (if testAttribute WA_WState_Created (qattrs s)
              then isHidden c' = explicitlyHidden c' || collapsed s
              else attrs c' = attrs c))
  /\ (forall d c s,
        isWidgetType c = true ->
        testAttribute WA_WState_Created (qattrs s) = true ->
        collapsed s = true ->
        exists s' c',
          addChild (S d) c s = Returned s'
          /\ children s' = children s ++ [c']
          /\ isHidden c' = true)
  /\ (forall d ty i s,
        ty <> ChildAdded -> childEvent (S d) ty i s = Returned s).
Proof.
  assert (Main : forall d c s,
    isWidgetType c = true ->
    exists s' c',
      addChild (S d) c s = Returned s'
      /\ children s' = children s ++ [c']
      /\ filtered c' = true
      /\ visibilityToParent c' =
         (if testAttribute WA_WState_ExplicitShowHide (attrs c)
             && testAttribute WA_WState_Hidden (attrs c)
          then Some false else visibilityToParent c)
      /\ (if testAttribute WA_WState_Created (qattrs s)
          then isHidden c' = explicitlyHidden c' || collapsed s
          else attrs c' = attrs c)).
  { intros d c s HW. rewrite addChild_spec. cbv zeta. rewrite HW.
    set (c1 := installEventFilter _).
    assert (W1 : isWidgetType c1 = true).
    { subst c1.
      by destruct (testAttribute WA_WState_ExplicitShowHide (attrs c)
                   && testAttribute WA_WState_Hidden (attrs c)). }
    assert (P1 : visibilityToParent c1 =
                 if testAttribute WA_WState_ExplicitShowHide (attrs c)
                    && testAttribute WA_WState_Hidden (attrs c)
                 then Some false else visibilityToParent c).
    { subst c1.
      by destruct (testAttribute WA_WState_ExplicitShowHide (attrs c)
                   && testAttribute WA_WState_Hidden (attrs c)). }
    assert (A1 : attrs c1 = attrs c).
    { subst c1.
      by destruct (testAttribute WA_WState_ExplicitShowHide (attrs c)
                   && testAttribute WA_WState_Hidden (attrs c)). }
    destruct (testAttribute WA_WState_Created (qattrs s)).
    - exists (set_ForcingVisibility false
                (set_children (children s ++ [forced (collapsed s) c1]) s)),
             (forced (collapsed s) c1).
      split; [done|]. split; [done|].
      split; [unfold forced; by rewrite W1|].
      split; [by rewrite forced_property|].
      rewrite isHidden_forced by done.
      unfold explicitlyHidden. by rewrite forced_property.
    - exists (set_children (children s ++ [c1]) s), c1.
      repeat split; done. }
  split; [|split; [exact Main|split]].
  - intros d i c s Hc HW. unfold childEvent. rewrite Hc, HW. done.
  - intros d c s HW Hcr Hcol.
    destruct (Main d c s HW) as (s' & c' & E & Hch & _ & _ & Hh).
    rewrite Hcr in Hh. exists s', c'. split; [done|]. split; [done|].
    rewrite Hh, Hcol. apply orb_true_r.
  - intros d ty i s Hty. unfold childEvent.
    destruct (children s !! i); [|done].
    by destruct ty.
Qed.

Lemma childEvent_child_added_witness :
  let s := exampleBox true false [userHiddenChild] in
  isWidgetType plainChild = true
  /\ testAttribute WA_WState_Created (qattrs s) = true
  /\ collapsed s = true
  /\ exists s' c', addChild 1 plainChild s = Returned s'
                   /\ children s' = children s ++ [c']
                   /\ isHidden c' = true.
Proof.
  cbv zeta. split; [reflexivity|]. split; [reflexivity|]. split; [reflexivity|].
  exact (proj1 (proj2 (proj2 childEvent_child_added)) 0%nat plainChild
           (exampleBox true false [userHiddenChild]) eq_refl eq_refl eq_refl).
Defined.

(** A pass over the children that leaves user-hidden children alone
    keeps child [i] hidden. *)
Lemma keptHidden_map (g : Child -> Child) i s s' :
  (forall c, visibilityToParent c = Some false -> isHidden c = true ->
             visibilityToParent (g c) = Some false /\ isHidden (g c) = true) ->
  children s' = map g (children s) ->
  keptHidden i s -> keptHidden i s'.
Proof.
  intros Hg Hch (c & Hc & Hp & Hh).
  exists (g c). rewrite Hch, lookup_map, Hc.
  destruct (Hg c Hp Hh). done.
Qed.

Lemma keptHidden_children i s s' :
  children s' = children s -> keptHidden i s -> keptHidden i s'.
Proof. intros Hch (c & Hc & H). exists c. by rewrite Hch. Qed.

Lemma forced_keeps b c :
  visibilityToParent c = Some false -> isHidden c = true ->
  visibilityToParent (forced b c) = Some false /\ isHidden (forced b c) = true.
Proof.
  intros Hp Hh. split; [by rewrite forced_property|].
  unfold forced. destruct (isWidgetType c); [|done].
  unfold isHidden, explicitlyHidden. cbn. by rewrite Hp.
Qed.

Lemma shownByParent_keeps c :
  visibilityToParent c = Some false -> isHidden c = true ->
  visibilityToParent (shownByParent c) = Some false
  /\ isHidden (shownByParent c) = true.
Proof.
  intros Hp Hh. unfold shownByParent. unfold isHidden in Hh. rewrite Hh.
  cbn. by rewrite andb_false_r.
Qed.

Lemma keptHidden_forcedAll i s : keptHidden i s -> keptHidden i (forcedAll s).
Proof.
  intros H. pose proof (forcedAll_children s) as Hch.
  destruct (testAttribute WA_WState_Created (qattrs s)).
  - eapply keptHidden_map; [apply forced_keeps | exact Hch | exact H].
  - by eapply keptHidden_children.
Qed.

Lemma keptHidden_expand d i b s s' :
  keptHidden i s -> expand (S d) b s = Returned s' -> keptHidden i s'.
Proof.
  intros H E.
  destruct (expand_frame d b s) as (s1 & E1 & _ & _ & _ & _ & _ & Hch).
  rewrite E1 in E. injection E as <-.
  destruct (testAttribute WA_WState_Created (qattrs s)).
  - eapply keptHidden_map; [apply forced_keeps | exact Hch | exact H].
  - by eapply keptHidden_children.
Qed.

(** Apart from an explicit show of child [i], no call lets a
    user-hidden child [i] out. *)
Lemma keptHidden_step d i op s s' :
  keptHidden i s -> op <> ChildSetVisible i true ->
  step (S d) op s = Returned s' -> keptHidden i s'.
Proof.
  intros K Hop H.
  destruct op as [b|b|show env| |c|j v]; cbn [step] in H.
  - unfold setChecked in H.
    destruct (checkable s && negb (eqb b (checked s))); [|by injection H as <-].
    destruct (toggled_expand (set_checked b s)); [|by injection H as <-].
    eapply keptHidden_expand; [|exact H].
    by eapply keptHidden_children.
  - by eapply keptHidden_expand.
  - destruct (setVisible_spec d show env s) as (a & l & Hl & _ & _ & E).
    rewrite E in H. injection H as <-. cbv zeta.
    assert (K1 : keptHidden i
                   (set_ForcingVisibility false (set_children l (set_qattrs a s)))).
    { destruct Hl as [-> | ->].
      - by eapply keptHidden_children.
      - eapply keptHidden_map; [apply shownByParent_keeps | | exact K]. done. }
    destruct (negb (IsStateCreated s) && created a); [|exact K1].
    apply keptHidden_forcedAll.
    by eapply keptHidden_children.
  - injection H as <-. by eapply keptHidden_children.
  - rewrite addChild_spec in H. cbv zeta in H. injection H as <-.
    destruct K as (c0 & Hc0 & K).
    assert (Hl : forall s1,
               (exists x, children s1 = children s ++ [x]) -> keptHidden i s1).
    { intros s1 (x & Hx). exists c0. split; [|exact K].
      rewrite Hx. by apply lookup_app_l_Some. }
    destruct (isWidgetType c).
    + destruct (created (qattrs s)); apply Hl; eexists; reflexivity.
    + apply Hl; eexists; reflexivity.
  - apply child_setVisible_shape in H
      as (c & c' & fv & Hc & _ & -> & _ & Hv).
    destruct K as (c0 & Hc0 & Hp & Hh).
    destruct (decide (j = i)) as [-> | Hne].
    + assert (v = false) as -> by (destruct v; [congruence | done]).
      rewrite Hc in Hc0. injection Hc0 as ->.
      destruct (Hv eq_refl) as (Hh' & Hp').
      exists c'. split; [|by split; [apply Hp'|]].
      cbn. apply list_lookup_insert_eq. by eapply lookup_lt_Some.
    + exists c0. split; [|done]. cbn. by rewrite list_lookup_insert_ne.
Qed.

(** C2.  A child whose [visibilityToParent] is valid and false is
    hidden by [setChildVisibility] whether the box is expanded or not.
    Once the user has hidden a child, it stays hidden with the property
    still false through every call on the box and its children (every
    expand in particular) as long as nobody shows that child
    explicitly.  The property is recorded by the filter: false on
    [HideToParent], true on [ShowToParent]; an explicit show of the
    child sets it back to true, after which the child follows the
    collapsed state again. *)
Theorem user_hidden_child_stays_hidden :
  (forall d i c s,
      testAttribute WA_WState_Created (qattrs s) = true ->
      children s !! i = Some c -> isWidgetType c = true ->
      visibilityToParent c = Some false ->
      exists s' c',
        setChildVisibility (S d) i s = Returned s'
        /\ children s' !! i = Some c'
        /\ isHidden c' = true
        /\ visibilityToParent c' = Some false)
  /\ (forall d i ops s s',
        keptHidden i s ->
        Forall (fun op => op <> ChildSetVisible i true) ops ->
        run (S d) ops s = Returned s' ->
        keptHidden i s')
  /\ (forall d i bs s,
        keptHidden i s ->
        exists s', run (S d) (map CallExpand bs) s = Returned s'
                   /\ keptHidden i s')
  /\ (forall d i c s,
        ForcingVisibility s = false -> children s !! i = Some c ->
        eventFilter (S d) i HideToParent s
        = Returned (false, set_child i (setProperty false c) s))
  /\ (forall d i c s,
        ForcingVisibility s = false ->
        children s !! i = Some c -> isWidgetType c = true ->
        filtered c = true -> isHidden c = true ->
        exists s' c',
          QWidget_setVisible (eventFilter (S d)) i true s = Returned s'
          /\ children s' !! i = Some c'
          /\ visibilityToParent c' = Some true
          /\ (testAttribute WA_WState_Created (qattrs s) = true ->
              isHidden c' = collapsed s)).
Proof.
  split; [|split; [|split; [|split]]].
  - intros d i c s Hcr Hc HW Hp.
    rewrite setChildVisibility_spec, Hcr, Hc, HW. cbn [negb].
    eexists _, (forced (collapsed s) c). split; [reflexivity|].
    split; [cbn; apply list_lookup_insert_eq; by eapply lookup_lt_Some|].
    split; [|by rewrite forced_property].
    rewrite isHidden_forced by done. unfold explicitlyHidden. by rewrite Hp.
  - intros d i ops. induction ops as [|op ops IH]; intros s s' K F R.
    + cbn in R. by injection R as <-.
    + cbn [run] in R. unfold_monad.
      destruct (step (S d) op s) as [s1| |] eqn:E; [|done|done].
      apply Forall_cons in F as [F1 F2].
      apply (IH s1 s'); [|exact F2|exact R].
      by eapply keptHidden_step.
  - intros d i bs. induction bs as [|b bs IH]; intros s K.
    + exists s. done.
    + cbn [map run]. cbn [step]. unfold_monad.
      destruct (expand_frame d b s) as (s1 & E & _).
      rewrite E. apply IH. by eapply keptHidden_expand.
  - intros d i c s HF Hc. unfold eventFilter, eventFilter_body.
    rewrite HF, Hc. done.
  - intros d i c s HF Hc HW Hfl Hh.
    rewrite (child_setVisible_spec d i true c) by done.
    unfold isHidden in Hh. rewrite Hh, Hfl. cbn [negb eqb andb].
    rewrite andb_false_r. cbv zeta.
    assert (Hlt : (i < length (children s))%nat) by (by eapply lookup_lt_Some).
    destruct (testAttribute WA_WState_Created (qattrs s)).
    + eexists _, _. split; [reflexivity|].
      split; [cbn; by apply list_lookup_insert_eq|].
      split; [by rewrite forced_property|].
      intros _. rewrite isHidden_forced by done. done.
    + eexists _, _. split; [reflexivity|].
      split; [cbn; by apply list_lookup_insert_eq|].
      split; done.
Qed.

Lemma user_hidden_child_stays_hidden_witness :
  let s := exampleBox true true [plainChild; userHiddenChild] in
  keptHidden 1 s
  /\ exists s',
      run 1 [CallSetChecked false; ChildSetVisible 0 true;
             AddChild plainChild; CallSetVisible true ParentVisible;
             ChildSetVisible 1 false; CallSetChecked true] s = Returned s'
      /\ keptHidden 1 s'.
Proof.
  cbv zeta.
  assert (K : keptHidden 1 (exampleBox true true [plainChild; userHiddenChild])).
  { exists userHiddenChild. repeat split. }
  split; [exact K|].
  eexists. split; [vm_compute; reflexivity|].
  apply (proj1 (proj2 user_hidden_child_stays_hidden) 0%nat 1%nat
           [CallSetChecked false; ChildSetVisible 0 true;
            AddChild plainChild; CallSetVisible true ParentVisible;
            ChildSetVisible 1 false; CallSetChecked true]
           (exampleBox true true [plainChild; userHiddenChild]));
    [exact K | | vm_compute; reflexivity].
  repeat constructor; discriminate.
Defined.

Lemma shownByParent_widget c :
  isWidgetType (shownByParent c) = isWidgetType c.
Proof.
  unfold shownByParent.
  by destruct (isWidgetType c
               && negb (testAttribute WA_WState_Hidden (attrs c)
                        || testAttribute WA_WState_ExplicitShowHide (attrs c))).
Qed.

Lemma explicit_forced b c :
  isWidgetType c = true ->
  testAttribute WA_WState_ExplicitShowHide (attrs (forced b c))
  = explicitlyHidden c.
Proof. intros H. unfold forced. by rewrite H. Qed.

(** C6.  While the box's window is not created, [setChildVisibility]
    returns the state it was given.  The deferred pass over the
    children belongs to [setVisible]: it runs when the latch
    [IsStateCreated] is clear and the box is created once the toolkit's
    [setVisible] is through, so in particular on the first call made on
    a created box.  When it runs it sets the latch and puts every widget
    child where the box wants it: hidden exactly when its
    [visibilityToParent] is valid and false or the box is collapsed,
    with [WA_WState_ExplicitShowHide] left set only on the children the
    user has hidden; no property and no child that is not a widget is
    touched.  Nothing else moves the latch, and a latched box never runs
    the pass again.  Over any sequence of calls the pass runs at most
    once, and from a clear latch it has run once exactly when the latch
    ends up set. *)
Theorem setChildVisibility_deferred_until_created :
  (forall d i s,
      testAttribute WA_WState_Created (qattrs s) = false ->
      setChildVisibility (S d) i s = Returned s)
  /\ (forall d show env s,
        IsStateCreated s = false ->
        testAttribute WA_WState_Created (qattrs s) = true ->
        fixupGuard (S d) show env s = true)
  /\ (forall d show env s,
        exists s1,
          QGroupBox_setVisible (eventFilter (S d)) show env
            (set_ForcingVisibility true s) = Returned s1
          /\ setVisible (S d) show env s =
             (if fixupGuard (S d) show env s
              then forWidgetChildren (setChildVisibility (S d))
                     (set_IsStateCreated true (set_ForcingVisibility false s1))
              else Returned (set_ForcingVisibility false s1))
          /\ exists s', setVisible (S d) show env s = Returned s')
  /\ (forall d show env s s',
        fixupGuard (S d) show env s = true ->
        setVisible (S d) show env s = Returned s' ->
        IsStateCreated s' = true
        /\ testAttribute WA_WState_Created (qattrs s') = true
        /\ collapsed s' = collapsed s
        /\ length (children s') = length (children s)
        /\ forall i c,
            children s !! i = Some c ->
            exists c',
              children s' !! i = Some c'
              /\ visibilityToParent c' = visibilityToParent c
              /\ if isWidgetType c
                 then isHidden c' = explicitlyHidden c || collapsed s
                      /\ testAttribute WA_WState_ExplicitShowHide (attrs c')
                         = explicitlyHidden c
                 else c' = c)
  /\ (forall d op s s',
        step (S d) op s = Returned s' ->
        IsStateCreated s' =
        IsStateCreated s
        || match op with
           | CallSetVisible show env => fixupGuard (S d) show env s
           | _ => false
           end)
  /\ (forall d ops s, IsStateCreated s = true -> fixups (S d) ops s = O)
  /\ (forall d ops s, (fixups (S d) ops s <= 1)%nat)
  /\ (forall d ops s s',
        run (S d) ops s = Returned s' ->
        IsStateCreated s = false ->
        fixups (S d) ops s = if IsStateCreated s' then 1%nat else 0%nat).
Proof.
  split; [|split; [|split; [|split; [|split; [|split; [|split]]]]]].
  - intros d i s H. rewrite setChildVisibility_spec. by rewrite H.
  - intros d show env s L C. unfold fixupGuard.
    destruct (setVisible_spec d show env s) as (a & l & _ & Ha & E & _).
    rewrite E. cbn. rewrite L. cbn in C.
    destruct Ha as [-> | (_ & _ & ->)]; [by rewrite C | done].
  - intros d show env s.
    destruct (setVisible_spec d show env s) as (a & l & _ & _ & E1 & E2).
    eexists. split; [exact E1|]. split; [|by eexists].
    rewrite E2. unfold fixupGuard. rewrite E1. cbn.
    destruct (negb (IsStateCreated s) && created a); [|done].
    by rewrite forWidgetChildren_spec.
  - intros d show env s s' G H.
    destruct (setVisible_spec d show env s) as (a & l & Hl & _ & E1 & E2).
    unfold fixupGuard in G. rewrite E1 in G. cbn in G.
    rewrite E2 in H. cbv zeta in H. rewrite G in H. injection H as <-.
    apply andb_prop in G as [_ Ga].
    set (s1 := set_IsStateCreated true _).
    pose proof (forcedAll_frame s1) as (_ & F2 & _ & F4 & _ & _ & _ & _ & F9).
    pose proof (forcedAll_children s1) as FC.
    change (testAttribute WA_WState_Created (qattrs s1)) with (created a) in FC.
    rewrite Ga in FC.
    change (children s1) with l in FC.
    change (collapsed s1) with (collapsed s) in FC.
    split; [by rewrite F9|]. split; [by rewrite F4|].
    split; [unfold collapsed; by rewrite F2|].
    split.
    { rewrite FC, length_map. destruct Hl as [-> | ->]; [done|].
      by rewrite length_map. }
    intros i c Hc.
    assert (Hx : exists x, l !! i = Some x
                           /\ visibilityToParent x = visibilityToParent c
                           /\ isWidgetType x = isWidgetType c
                           /\ (isWidgetType c = false -> x = c)).
    { destruct Hl as [-> | ->].
      - exists c. done.
      - exists (shownByParent c). rewrite lookup_map, Hc.
        split; [done|]. split; [apply shownByParent_property|].
        split; [apply shownByParent_widget|].
        intros W. unfold shownByParent. by rewrite W. }
    destruct Hx as (x & Hx & Px & Wx & Nx).
    exists (forced (collapsed s) x).
    split; [by rewrite FC, lookup_map, Hx|].
    split; [by rewrite forced_property|].
    destruct (isWidgetType c) eqn:HW.
    + rewrite isHidden_forced, explicit_forced by done.
      unfold explicitlyHidden. rewrite Px. done.
    + rewrite (Nx eq_refl). unfold forced. by rewrite HW.
  - intros d op s s'. apply step_latch.
  - intros d ops s. apply fixups_latched.
  - intros d ops s. apply fixups_at_most_once.
  - intros d ops s s'. apply fixups_count.
Qed.

Lemma setChildVisibility_deferred_until_created_witness :
  let s := exampleBox false false [plainChild; userHiddenChild] in
  setChildVisibility 1 0 s = Returned s
  /\ fixupGuard 1 true ParentVisible s = true
  /\ (exists s' c',
        setVisible 1 true ParentVisible s = Returned s'
        /\ IsStateCreated s' = true
        /\ children s' !! 0%nat = Some c'
        /\ isHidden plainChild = false
        /\ isHidden c' = true)
  /\ fixups 1 [CallSetVisible true ParentNotCreated; ToolkitCreate;
               CallSetVisible false ParentVisible;
               CallSetVisible true ParentVisible] s = 1%nat.
Proof.
  cbv zeta. split; [|split; [|split]].
  - apply (proj1 setChildVisibility_deferred_until_created). reflexivity.
  - reflexivity.
  - destruct (proj1 (proj2 (proj2 setChildVisibility_deferred_until_created))
                0%nat true ParentVisible
                (exampleBox false false [plainChild; userHiddenChild]))
      as (_ & _ & _ & s' & E).
    destruct (proj1 (proj2 (proj2 (proj2 setChildVisibility_deferred_until_created)))
                0%nat true ParentVisible
                (exampleBox false false [plainChild; userHiddenChild]) s'
                eq_refl E) as (L & _ & _ & _ & Hch).
    destruct (Hch 0%nat plainChild eq_refl) as (c' & Hc' & _ & Hh & _).
    exists s', c'. split; [exact E|]. split; [exact L|].
    split; [exact Hc'|]. split; [reflexivity|]. exact Hh.
  - reflexivity.
Defined.

End GroupBoxFacts.

(** ** Facts about the popup widget *)

Module PopupWidgetFacts.
Import PopupWidget.

Lemma ticks_settled fadeStep n : forall p,
  phase p = Open \/ phase p = Closed -> ticks fadeStep n p = p.
Proof.
  induction n as [|n IH]; intros p H; [done|].
  cbn [ticks].
  assert (E : animatePopup fadeStep p = p)
    by (unfold animatePopup; destruct H as [-> | ->]; done).
  rewrite E. by apply IH.
Qed.

Lemma fade_in fadeStep : 0 < fadeStep -> forall n p,
  phase p = Opening -> (0 < n)%nat ->
  Opacity p - alpha p <= Z.of_nat n * fadeStep ->
  let p' := ticks fadeStep n p in
  phase p' = Open /\ alpha p' = Opacity p /\ isVisible p' = isVisible p
  /\ geometry p' = geometry p /\ BaseWidget p' = BaseWidget p.
Proof.
  intros Hs. induction n as [|n IH]; intros p Hp Hn Hd; [lia|].
  cbn [ticks]. cbv zeta.
  destruct (Opacity p <=? Z.min (alpha p + fadeStep) (Opacity p)) eqn:E.
  - rewrite ticks_settled.
    + unfold animatePopup. rewrite Hp, E. cbn.
      apply Z.leb_le in E. repeat split; lia.
    + left. unfold animatePopup. by rewrite Hp, E.
  - apply Z.leb_gt in E.
    assert (Hn' : (0 < n)%nat) by (destruct n; [lia | lia]).
    specialize (IH (animatePopup fadeStep p)).
    unfold animatePopup in IH |- *. rewrite Hp in IH |- *.
    apply Z.leb_gt in E. rewrite E in IH |- *. cbn in IH.
    apply Z.leb_gt in E.
    apply IH; [done | done | lia].
Qed.

Lemma fade_out fadeStep : 0 < fadeStep -> forall n p,
  phase p = Closing -> (0 < n)%nat ->
  alpha p <= Z.of_nat n * fadeStep ->
  let p' := ticks fadeStep n p in
  phase p' = Closed /\ alpha p' = 0 /\ isVisible p' = false.
Proof.
  intros Hs. induction n as [|n IH]; intros p Hp Hn Hd; [lia|].
  cbn [ticks]. cbv zeta.
  destruct (Z.max (alpha p - fadeStep) 0 <=? 0) eqn:E.
  - rewrite ticks_settled.
    + unfold animatePopup. rewrite Hp, E. cbn.
      apply Z.leb_le in E. repeat split; lia.
    + right. unfold animatePopup. by rewrite Hp, E.
  - apply Z.leb_gt in E.
    assert (Hn' : (0 < n)%nat) by (destruct n; [lia | lia]).
    specialize (IH (animatePopup fadeStep p)).
    unfold animatePopup in IH |- *. rewrite Hp in IH |- *.
    apply Z.leb_gt in E. rewrite E in IH |- *. cbn in IH.
    apply Z.leb_gt in E.
    apply IH; [done | done | lia].
Qed.

(** C7.  On the model of the popup taken from the spec: the base widget
    set with [setBaseWidget] is the one [baseWidget] returns; [showPopup]
    on a closed popup makes it visible right under its base widget and
    starts the fade, which ends open at the final opacity; [hidePopup] on
    an open popup starts the opposite fade, which ends closed, fully
    transparent and hidden. *)
Theorem popup_attached_and_fading (fadeStep : Z) (p : Popup) :
  0 < fadeStep ->
  (forall w, baseWidget (setBaseWidget w p) = w)
  /\ (forall b, BaseWidget p = Some b -> phase p = Closed ->
        let p1 := showPopup p in
        phase p1 = Opening /\ isVisible p1 = true
        /\ left (geometry p1) = left b
        /\ top (geometry p1) = top b + rheight b)
  /\ (forall n, phase p = Closed \/ phase p = Closing -> (0 < n)%nat ->
        Opacity p - alpha p <= Z.of_nat n * fadeStep ->
        let p2 := ticks fadeStep n (showPopup p) in
        phase p2 = Open /\ alpha p2 = Opacity p /\ isVisible p2 = true)
  /\ (forall n, phase p = Open \/ phase p = Opening -> (0 < n)%nat ->
        alpha p <= Z.of_nat n * fadeStep ->
        let p3 := ticks fadeStep n (hidePopup p) in
        phase p3 = Closed /\ alpha p3 = 0 /\ isVisible p3 = false).
Proof.
  intros Hs. split; [done|]. split; [|split].
  - intros b Hb Hp. unfold showPopup, updatePopup. rewrite Hp, Hb. done.
  - intros n Hp Hn Hd.
    assert (Hshow : phase (showPopup p) = Opening
                    /\ Opacity (showPopup p) = Opacity p
                    /\ alpha (showPopup p) = alpha p
                    /\ isVisible (showPopup p) = true).
    { unfold showPopup, updatePopup.
      destruct Hp as [-> | ->]; destruct (BaseWidget p); done. }
    destruct Hshow as (H1 & H2 & H3 & H4).
    pose proof (fade_in fadeStep Hs n (showPopup p) H1 Hn) as F.
    rewrite H2, H3, H4 in F. destruct (F Hd) as (F1 & F2 & F3 & _).
    done.
  - intros n Hp Hn Hd.
    assert (Hhide : phase (hidePopup p) = Closing
                    /\ alpha (hidePopup p) = alpha p).
    { unfold hidePopup. destruct Hp as [-> | ->]; done. }
    destruct Hhide as (H1 & H2).
    pose proof (fade_out fadeStep Hs n (hidePopup p) H1 Hn) as F.
    rewrite H2 in F. exact (F Hd).
Qed.

Lemma popup_attached_and_fading_witness :
  0 < 64
  /\ (let p1 := showPopup popup0 in
      phase p1 = Opening /\ isVisible p1 = true
      /\ left (geometry p1) = 10 /\ top (geometry p1) = 20 + 25)
  /\ (let p2 := ticks 64 4 (showPopup popup0) in
      phase p2 = Open /\ alpha p2 = 255 /\ isVisible p2 = true).
Proof.
  destruct (popup_attached_and_fading 64 popup0 ltac:(lia))
    as (_ & H2 & H3 & _).
  split; [lia|]. split.
  - exact (H2 (mkRect 10 20 80 25) eq_refl eq_refl).
  - apply (H3 4%nat); [by left | lia | vm_compute; discriminate].
Defined.

(** C8.  The inline slot [showPopup(bool)] makes one member call:
    [showPopup()] exactly when [show] is true, [hidePopup()] exactly when
    it is false; whatever the two members do, the slot does that and
    nothing more. *)
Theorem showPopup_bool_dispatch (show : bool) :
  showPopup_bool show = [if show then CallShowPopup else CallHidePopup]
  /\ (In CallShowPopup (showPopup_bool show) <-> show = true)
  /\ (In CallHidePopup (showPopup_bool show) <-> show = false)
  /\ (forall (W : Type) (sp hp : W -> W) (this : W),
        exec W sp hp (showPopup_bool show) this
        = if show then sp this else hp this).
Proof.
  destruct show; cbn; repeat split; try done; intros H;
    try (destruct H as [H|[]]; discriminate); auto.
Qed.

End PopupWidgetFacts.

(** ** Facts about the build file of pluginSL3_test *)

Module PluginSL3TestFacts.
Import PluginSL3Test.
Local Open Scope string_scope.

(** C10.  The file is build configuration for a test plugin: it names
    the project [pluginSL3_test], declares one source and one moc
    header, asks for the target libraries and hands everything to
    [ctkMacroBuildPlugin] with the [TEST_PLUGIN] flag; its commands are
    [project], [set] and these two invocations, none of which branches,
    loops, defines or loads anything. *)
Theorem pluginSL3_test_is_build_configuration (libs : list string) :
  let e := configure libs CMakeLists in
  vars e !! "PROJECT_NAME" = Some ["pluginSL3_test"]
  /\ vars e !! "PLUGIN_SRCS" = Some ["ctkActivatorSL3.cpp"]
  /\ vars e !! "PLUGIN_MOC_SRCS" = Some ["ctkActivatorSL3_p.h"]
  /\ vars e !! "PLUGIN_UI_FORMS" = None
  /\ vars e !! "PLUGIN_resources" = None
  /\ invoked e =
     [("ctkFunctionGetTargetLibraries", ["PLUGIN_target_libraries"]);
      ("ctkMacroBuildPlugin",
       (["NAME"; "pluginSL3_test";
         "EXPORT_DIRECTIVE"; "pluginSL3_test_EXPORT";
         "SRCS"; "ctkActivatorSL3.cpp";
         "MOC_SRCS"; "ctkActivatorSL3_p.h";
         "UI_FORMS"; "RESOURCES"; "TARGET_LIBRARIES"]
        ++ libs ++ ["TEST_PLUGIN"])%list)]
  /\ map cname CMakeLists =
     ["project"; "set"; "set"; "set"; "set"; "set";
      "ctkFunctionGetTargetLibraries"; "ctkMacroBuildPlugin"]
  /\ forallb (fun c => negb (is_control (cname c))) CMakeLists = true.
Proof.
  cbv zeta. repeat split; vm_compute; reflexivity.
Qed.

End PluginSL3TestFacts.

(** ** The collapsible group box over whole runs *)

Module GroupBoxRuns.
Import Qt GroupBox GroupBoxFacts.

#[local] Arguments setChildVisibility : simpl never.
#[local] Arguments forWidgetChildren : simpl never.

Lemma forallb_Forall {A} (f : A -> bool) (l : list A) :
  forallb f l = true <-> Forall (fun x => f x = true) l.
Proof.
  induction l as [|x l IH]; cbn.
  - split; [constructor | done].
  - rewrite andb_true_iff, IH. split.
    + intros [H1 H2]. by constructor.
    + intros H. apply Forall_cons in H. exact H.
Qed.

(** [boxInvariant], spelled out. *)
Lemma boxInvariant_spec s :
  boxInvariant s = true <->
  ForcingVisibility s = false
  /\ toggled_expand s = true
  /\ (IsStateCreated s = true ->
      testAttribute WA_WState_Created (qattrs s) = true)
  /\ Forall (fun c => tracks (IsStateCreated s) (collapsed s) c = true)
       (children s).
Proof.
  unfold boxInvariant. rewrite !andb_true_iff, forallb_Forall.
  rewrite negb_true_iff.
  split.
  - intros (((H1 & H2) & H3) & H4). repeat split; try done.
    intros L. rewrite L in H3. exact H3.
  - intros (H1 & H2 & H3 & H4). repeat split; try done.
    destruct (IsStateCreated s); [by rewrite H3 | done].
Qed.

Lemma tracks_forced l0 col0 l col c :
  tracks l0 col0 c = true -> tracks l col (forced col c) = true.
Proof.
  unfold tracks, forced, isHidden, explicitlyHidden.
  destruct c as [w [cr hd ex] [[|]|] fl]; cbn;
    destruct w, fl, l0, l, col0, col, hd; cbn; done.
Qed.

Lemma tracks_unlatched l0 col0 col c :
  tracks l0 col0 c = true -> tracks false col c = true.
Proof.
  unfold tracks. destruct (isWidgetType c), (filtered c); cbn; done.
Qed.

Lemma tracks_shownByParent l col c :
  tracks l col c = true -> tracks l col (shownByParent c) = true.
Proof.
  unfold tracks, shownByParent, isHidden, explicitlyHidden.
  destruct c as [w [cr hd ex] [[|]|] fl]; cbn;
    destruct w, fl, l, col, hd, ex; cbn; done.
Qed.

Lemma Forall_map_tracks (g : Child -> Child) l col l0 col0 cs :
  (forall c, tracks l0 col0 c = true -> tracks l col (g c) = true) ->
  Forall (fun c => tracks l0 col0 c = true) cs ->
  Forall (fun c => tracks l col c = true) (map g cs).
Proof.
  intros Hg H. induction H as [|c cs Hc _ IH]; cbn; constructor; auto.
Qed.

Lemma forcedAll_forcing s :
  ForcingVisibility s = false -> ForcingVisibility (forcedAll s) = false.
Proof.
  intros H. unfold forcedAll.
  destruct (testAttribute WA_WState_Created (qattrs s)); [|exact H].
  cbn. rewrite H. by destruct (existsb isWidgetType (children s)).
Qed.

Lemma expand_forcing d b s s' :
  ForcingVisibility s = false -> expand (S d) b s = Returned s' ->
  ForcingVisibility s' = false.
Proof.
  intros HF H. rewrite expand_spec in H. injection H as <-.
  destruct b; cbv zeta; unfold resize, setMaximumHeight, set_geometry,
    set_MaxHeight; cbn [ForcingVisibility].
  - by apply forcedAll_forcing.
  - by apply forcedAll_forcing.
Qed.

(** [expand] on a box that satisfies everything but, possibly, the
    agreement of the children with the check state. *)
Lemma expand_invariant d b s s' :
  ForcingVisibility s = false -> toggled_expand s = true ->
  (IsStateCreated s = true -> testAttribute WA_WState_Created (qattrs s) = true) ->
  Forall (fun c => tracks false false c = true) (children s) ->
  expand (S d) b s = Returned s' ->
  boxInvariant s' = true.
Proof.
  intros HF HT HL HC H.
  pose proof (expand_forcing d b s s' HF H) as F'.
  destruct (expand_frame d b s) as (s1 & E & _ & F2 & F3 & F4 & F5 & F6).
  rewrite E in H. injection H as <-.
  apply boxInvariant_spec. rewrite F4, F5, F6, F3.
  split; [done|]. split; [done|]. split; [done|].
  unfold collapsed. rewrite F2. fold (collapsed s).
  destruct (testAttribute WA_WState_Created (qattrs s)) eqn:Hcr.
  - eapply Forall_map_tracks; [|exact HC]. intros c. apply tracks_forced.
  - assert (L : IsStateCreated s = false).
    { destruct (IsStateCreated s); [|done]. discriminate (HL eq_refl). }
    rewrite L. eapply Forall_impl; [exact HC|].
    intros c Hc. exact (tracks_unlatched _ _ _ _ Hc).
Qed.

Lemma Forall_tracks_weaken l col cs :
  Forall (fun c => tracks l col c = true) cs ->
  Forall (fun c => tracks false false c = true) cs.
Proof.
  intros H. eapply Forall_impl; [exact H|].
  intros c Hc. exact (tracks_unlatched _ _ _ _ Hc).
Qed.

(** Every call keeps the invariant. *)
Lemma step_invariant d op s s' :
  boxInvariant s = true -> step (S d) op s = Returned s' ->
  boxInvariant s' = true.
Proof.
  intros I H. pose proof I as I0.
  apply boxInvariant_spec in I as (HF & HT & HL & HC).
  destruct op as [b|b|show env| |c|i v]; cbn [step] in H.
  - unfold setChecked in H.
    destruct (checkable s && negb (eqb b (checked s))); [|by injection H as <-].
    change (toggled_expand (set_checked b s)) with (toggled_expand s) in H.
    rewrite HT in H.
    eapply (expand_invariant d b (set_checked b s)); try done.
    by eapply Forall_tracks_weaken.
  - eapply (expand_invariant d b s); try done.
    by eapply Forall_tracks_weaken.
  - destruct (setVisible_spec d show env s) as (a & l & Hl & Ha & _ & E).
    rewrite E in H. injection H as <-. cbv zeta.
    assert (HCl : Forall (fun c => tracks (IsStateCreated s) (collapsed s) c = true) l).
    { destruct Hl as [-> | ->]; [exact HC|].
      eapply Forall_map_tracks; [|exact HC].
      intros c. apply tracks_shownByParent. }
    destruct (negb (IsStateCreated s) && created a) eqn:G.
    + apply andb_prop in G as [_ Gc].
      apply boxInvariant_spec.
      set (s1 := set_IsStateCreated true _).
      pose proof (forcedAll_frame s1) as (_ & F2 & F3 & F4 & _ & _ & _ & _ & F9).
      pose proof (forcedAll_children s1) as FC.
      rewrite F4, F9, F3, FC. unfold collapsed. rewrite F2.
      split; [by apply forcedAll_forcing|]. split; [done|].
      split; [done|]. subst s1. cbn. rewrite Gc.
      eapply Forall_map_tracks; [|exact HCl]. intros c. apply tracks_forced.
    + apply boxInvariant_spec. cbn.
      split; [done|]. split; [done|]. split; [|exact HCl].
      intros L. specialize (HL L). cbn in HL.
      destruct Ha as [-> | (_ & _ & ->)]; done.
  - injection H as <-. apply boxInvariant_spec. cbn.
    split; [done|]. split; [done|]. split; [done|]. exact HC.
  - rewrite addChild_spec in H. cbv zeta in H. injection H as <-.
    set (c1 := installEventFilter _).
    assert (T1 : forall l col, isWidgetType c = true ->
                               tracks l col (forced col c1) = true).
    { intros l col HW. apply (tracks_forced false false).
      subst c1. unfold tracks.
      destruct (explicitShowHide (attrs c) && hidden (attrs c)); cbn;
        by rewrite orb_true_r. }
    apply boxInvariant_spec.
    destruct (isWidgetType c) eqn:HW.
    + destruct (created (qattrs s)) eqn:Hcr; cbn.
      * split; [done|]. split; [done|]. split; [done|].
        apply Forall_app. split; [exact HC|]. constructor; [|constructor].
        by apply T1.
      * assert (L : IsStateCreated s = false).
        { destruct (IsStateCreated s); [|done]. specialize (HL eq_refl).
          cbn in HL. congruence. }
        split; [done|]. split; [done|]. split; [by rewrite L|].
        apply Forall_app. split; [exact HC|]. constructor; [|constructor].
        rewrite L. subst c1. unfold tracks.
        destruct (explicitShowHide (attrs c) && hidden (attrs c)); cbn;
          by rewrite orb_true_r.
    + cbn. split; [done|]. split; [done|]. split; [done|].
      apply Forall_app. split; [exact HC|]. constructor; [|constructor].
      unfold tracks. by rewrite HW.
  - destruct (children s !! i) as [c|] eqn:Hc.
    2: { unfold QWidget_setVisible, widget in H. by rewrite Hc in H. }
    destruct (isWidgetType c) eqn:HW.
    2: { unfold QWidget_setVisible, widget in H. by rewrite Hc, HW in H. }
    rewrite (child_setVisible_spec d i v c) in H by done.
    cbv zeta in H.
    destruct (testAttribute WA_WState_ExplicitShowHide (attrs c)
              && eqb (testAttribute WA_WState_Hidden (attrs c)) (negb v));
      [by injection H as <-|].
    assert (Tc : tracks (IsStateCreated s) (collapsed s) c = true).
    { rewrite Forall_forall in HC. apply HC.
      apply list_elem_of_lookup. by exists i. }
    assert (Hfl : filtered c = true).
    { unfold tracks in Tc. rewrite HW in Tc. cbn in Tc.
      by apply andb_prop in Tc as [Tc _]. }
    rewrite Hfl in H.
    assert (Hins : forall c',
               tracks (IsStateCreated s) (collapsed s) c' = true ->
               Forall (fun c => tracks (IsStateCreated s) (collapsed s) c = true)
                 (<[i:=c']> (children s))).
    { intros c' Hc'. by apply Forall_insert. }
    destruct v.
    + destruct (testAttribute WA_WState_Created (qattrs s)) eqn:Hcr;
        injection H as <-; apply boxInvariant_spec; cbn.
      * split; [done|]. split; [done|]. split; [done|].
        apply Hins. apply (tracks_forced false false).
        unfold tracks. cbn. by rewrite Hfl, orb_true_r.
      * assert (L : IsStateCreated s = false).
        { destruct (IsStateCreated s); [|done]. specialize (HL eq_refl).
          congruence. }
        split; [done|]. split; [done|]. split; [by rewrite L|].
        apply Hins. rewrite L. unfold tracks. cbn.
        by rewrite Hfl, orb_true_r.
    + injection H as <-. apply boxInvariant_spec. cbn.
      split; [done|]. split; [done|]. split; [done|].
      apply Hins. unfold tracks, isHidden, explicitlyHidden. cbn.
      rewrite Hfl. cbn. by rewrite !orb_true_r.
Qed.

Lemma run_invariant d ops : forall s s',
  boxInvariant s = true -> run (S d) ops s = Returned s' ->
  boxInvariant s' = true.
Proof.
  induction ops as [|op ops IH]; intros s s' I R.
  - cbn in R. by injection R as <-.
  - cbn [run] in R. unfold_monad.
    destruct (step (S d) op s) as [s1| |] eqn:E; [|done|done].
    apply (IH s1 s'); [|exact R]. by eapply step_invariant.
Qed.

(** X1.  The constructor leaves the box in a state that satisfies
    [boxInvariant], and every sequence of calls on the box and on its
    children that gives the box no new widget child keeps it.  So once
    the deferred pass of [setVisible] has run, every widget child is
    hidden exactly when its [visibilityToParent] is valid and false or
    the box is collapsed, and every widget child carries the event
    filter.  (A new widget child is left out because the toolkit settles
    its [WA_WState_Hidden] after [childEvent] has returned.) *)
Theorem children_follow_the_box :
  (forall d z,
      exists s0, ctkCollapsibleGroupBox (S d) (QGroupBox_new z) = Returned s0
                 /\ boxInvariant s0 = true)
  /\ (forall d ops s s',
        boxInvariant s = true ->
        forallb noNewWidget ops = true ->
        run (S d) ops s = Returned s' ->
        boxInvariant s' = true
        /\ forall i c,
            children s' !! i = Some c -> isWidgetType c = true ->
            filtered c = true
            /\ (IsStateCreated s' = true ->
                isHidden c = explicitlyHidden c || collapsed s')).
Proof.
  split.
  - intros d z. eexists. split; [reflexivity|]. reflexivity.
  - intros d ops s s' I _ R.
    pose proof (run_invariant d ops s s' I R) as I'.
    split; [exact I'|].
    apply boxInvariant_spec in I' as (_ & _ & _ & HC).
    intros i c Hc HW.
    rewrite Forall_forall in HC.
    assert (T : tracks (IsStateCreated s') (collapsed s') c = true).
    { apply HC. apply list_elem_of_lookup. by exists i. }
    unfold tracks in T. rewrite HW in T. cbn in T.
    apply andb_prop in T as [T1 T2]. split; [exact T1|].
    intros L. rewrite L in T2. cbn in T2. by apply eqb_prop.
Qed.

Lemma children_follow_the_box_witness :
  let s := exampleBox false true [plainChild; userHiddenChild] in
  boxInvariant s = true
  /\ exists s',
      run 1 [CallSetChecked false; AddChild layoutChild;
             CallSetVisible true ParentVisible;
             ChildSetVisible 0 true; CallSetChecked true;
             ChildSetVisible 0 false; CallSetChecked false] s = Returned s'
      /\ boxInvariant s' = true.
Proof.
  cbv zeta. split; [reflexivity|].
  eexists. split; [vm_compute; reflexivity|].
  apply (proj2 children_follow_the_box 0%nat
           [CallSetChecked false; AddChild layoutChild;
            CallSetVisible true ParentVisible;
            ChildSetVisible 0 true; CallSetChecked true;
            ChildSetVisible 0 false; CallSetChecked false]
           (exampleBox false true [plainChild; userHiddenChild]));
    [reflexivity | reflexivity | vm_compute; reflexivity].
Defined.

Lemma step_forcing d op s s' :
  ForcingVisibility s = false -> step (S d) op s = Returned s' ->
  ForcingVisibility s' = false.
Proof.
  intros HF H.
  destruct op as [b|b|show env| |c|i v]; cbn [step] in H.
  - unfold setChecked in H.
    destruct (checkable s && negb (eqb b (checked s))); [|by injection H as <-].
    destruct (toggled_expand (set_checked b s)); [|by injection H as <-].
    by eapply (expand_forcing d b (set_checked b s)).
  - by eapply expand_forcing.
  - destruct (setVisible_spec d show env s) as (a & l & _ & _ & _ & E).
    rewrite E in H. injection H as <-. cbv zeta.
    destruct (negb (IsStateCreated s) && created a); [|done].
    by apply forcedAll_forcing.
  - by injection H as <-.
  - rewrite addChild_spec in H. cbv zeta in H. injection H as <-.
    destruct (isWidgetType c); [|done].
    by destruct (created (qattrs s)).
  - destruct (children s !! i) as [c|] eqn:Hc.
    2: { unfold QWidget_setVisible, widget in H. by rewrite Hc in H. }
    destruct (isWidgetType c) eqn:HW.
    2: { unfold QWidget_setVisible, widget in H. by rewrite Hc, HW in H. }
    rewrite (child_setVisible_spec d i v c) in H by done.
    cbv zeta in H.
    destruct (testAttribute WA_WState_ExplicitShowHide (attrs c)
              && eqb (testAttribute WA_WState_Hidden (attrs c)) (negb v));
      [by injection H as <-|].
    destruct (filtered c); [|by injection H as <-].
    destruct v; [|by injection H as <-].
    destruct (testAttribute WA_WState_Created (qattrs s));
      by injection H as <-.
Qed.

(** X2.  [ForcingVisibility] never stays set: a sequence of calls that
    starts with the flag down ends with the flag down, so the event
    filter is never left switched off.  [setVisible] and, in a created
    box, [setChildVisibility] return with the flag down even when it was
    up on entry. *)
Theorem forcing_flag_never_leaks :
  (forall d ops s s',
      ForcingVisibility s = false -> run (S d) ops s = Returned s' ->
      ForcingVisibility s' = false)
  /\ (forall d show env s s',
        setVisible (S d) show env s = Returned s' ->
        ForcingVisibility s' = false)
  /\ (forall d i s s',
        testAttribute WA_WState_Created (qattrs s) = true ->
        setChildVisibility (S d) i s = Returned s' ->
        ForcingVisibility s' = false).
Proof.
  split; [|split].
  - intros d ops. induction ops as [|op ops IH]; intros s s' HF R.
    + cbn in R. by injection R as <-.
    + cbn [run] in R. unfold_monad.
      destruct (step (S d) op s) as [s1| |] eqn:E; [|done|done].
      apply (IH s1 s'); [|exact R]. by eapply step_forcing.
  - intros d show env s s' H.
    destruct (setVisible_spec d show env s) as (a & l & _ & _ & _ & E).
    rewrite E in H. injection H as <-. cbv zeta.
    destruct (negb (IsStateCreated s) && created a); [|done].
    by apply forcedAll_forcing.
  - intros d i s s' Hcr H.
    rewrite setChildVisibility_spec, Hcr in H. cbn [negb] in H.
    destruct (children s !! i) as [c|]; [|done].
    destruct (isWidgetType c); [|done]. by injection H as <-.
Qed.

Lemma forcing_flag_never_leaks_witness :
  let s := set_ForcingVisibility true (exampleBox true false [plainChild]) in
  testAttribute WA_WState_Created (qattrs s) = true
  /\ exists s', setChildVisibility 1 0 s = Returned s'
                /\ ForcingVisibility s' = false.
Proof.
  cbv zeta. split; [reflexivity|].
  eexists. split; [vm_compute; reflexivity|].
  apply (proj2 (proj2 forcing_flag_never_leaks) 0%nat 0%nat
           (set_ForcingVisibility true (exampleBox true false [plainChild])));
    [reflexivity | vm_compute; reflexivity].
Defined.

(** X3.  [eventFilter] never filters an event out: whenever it returns,
    it returns [false], so the child still receives the event; and an
    event that is neither [ShowToParent] nor [HideToParent] leaves the
    box and its children as they were. *)
Theorem eventFilter_never_swallows :
  (forall d child e s r,
      eventFilter d child e s = Returned r -> fst r = false)
  /\ (forall d child e s,
        e <> ShowToParent -> e <> HideToParent ->
        eventFilter d child e s = Returned (false, s)).
Proof.
  split.
  - intros d child e s r H. unfold eventFilter, eventFilter_body in H.
    destruct (ForcingVisibility s); [by injection H as <-|].
    destruct e; try (by injection H as <-); unfold_monad;
      destruct (children s !! child) as [c|]; try done.
    + destruct (setChildVisibility d child _); try done. by injection H as <-.
    + by injection H as <-.
  - intros d child e s H1 H2. unfold eventFilter, eventFilter_body.
    destruct (ForcingVisibility s); [done|]. by destruct e.
Qed.

Lemma eventFilter_never_swallows_witness :
  let s := exampleBox true false [plainChild] in
  eventFilter 1 0 ShowToParent s
  = Returned (false,
              set_ForcingVisibility false
                (set_child 0 (forced true (setProperty true plainChild)) s))
  /\ eventFilter 1 0 ChildPolished s = Returned (false, s).
Proof.
  cbv zeta. split; [vm_compute; reflexivity|].
  apply (proj2 eventFilter_never_swallows); discriminate.
Defined.

(** X4.  The box's own entry points never dereference a null widget:
    [setChecked], [expand], [setVisible] and [childEvent] on a new child
    always return.  A [setVisible] on a child fails exactly when there
    is no such child or it is not a widget, and so does
    [setChildVisibility] in a created box. *)
Theorem entry_points_always_return :
  (forall d op s,
      (forall i v, op <> ChildSetVisible i v) ->
      exists s', step (S d) op s = Returned s')
  /\ (forall d i v s,
        step (S d) (ChildSetVisible i v) s = NullWidget
        <-> ~ exists c, children s !! i = Some c /\ isWidgetType c = true)
  /\ (forall d i s,
        testAttribute WA_WState_Created (qattrs s) = true ->
        (setChildVisibility (S d) i s = NullWidget
         <-> ~ exists c, children s !! i = Some c /\ isWidgetType c = true)).
Proof.
  split; [|split].
  - intros d op s Hop.
    destruct op as [b|b|show env| |c|i v]; cbn [step].
    + unfold setChecked.
      destruct (checkable s && negb (eqb b (checked s))); [|by eexists].
      destruct (toggled_expand (set_checked b s)); [|by eexists].
      rewrite expand_spec. by eexists.
    + rewrite expand_spec. by eexists.
    + destruct (setVisible_spec d show env s) as (a & l & _ & _ & _ & E).
      rewrite E. by eexists.
    + by eexists.
    + rewrite addChild_spec. by eexists.
    + by destruct (Hop i v).
  - intros d i v s. cbn [step]. split.
    + intros H (c & Hc & HW).
      destruct (ForcingVisibility s) eqn:HF.
      * unfold eventFilter in H.
        by rewrite (QWidget_setVisible_forcing _ i c) in H.
      * by rewrite (child_setVisible_spec d i v c) in H.
    + intros H. unfold QWidget_setVisible, widget.
      destruct (children s !! i) as [c|] eqn:Hc; [|done].
      destruct (isWidgetType c) eqn:HW; [|done].
      destruct H. by exists c.
  - intros d i s Hcr. rewrite setChildVisibility_spec, Hcr. cbn [negb].
    split.
    + intros H (c & Hc & HW). by rewrite Hc, HW in H.
    + intros H. destruct (children s !! i) as [c|] eqn:Hc; [|done].
      destruct (isWidgetType c) eqn:HW; [|done].
      destruct H. by exists c.
Qed.

Lemma entry_points_always_return_witness :
  let s := exampleBox true true [plainChild] in
  (exists s', step 1 (CallSetVisible false ParentNotCreated) s = Returned s')
  /\ step 1 (ChildSetVisible 3 true) s = NullWidget.
Proof.
  cbv zeta. split.
  - apply (proj1 entry_points_always_return 0%nat
             (CallSetVisible false ParentNotCreated)).
    discriminate.
  - apply (proj1 (proj2 entry_points_always_return) 0%nat 3%nat true
             (exampleBox true true [plainChild])).
    intros (c & Hc & _). discriminate Hc.
Defined.

(** What [expand(false)] and [expand(true)] do to the geometry. *)
Lemma expand_false_geometry d s s' :
  expand (S d) false s = Returned s' ->
  OldSize s' = size s /\ MaxHeight s' = maximumHeight s
  /\ maximumHeight s' = 22 /\ height (size s') <= 22.
Proof.
  intros H. rewrite expand_spec in H. injection H as <-. cbv zeta.
  pose proof (forcedAll_frame (set_OldSize (size s) s))
    as (_ & _ & _ & _ & A5 & A6 & A7 & _).
  cbn in A5, A6, A7.
  unfold setMaximumHeight, set_geometry, set_MaxHeight.
  cbn [OldSize MaxHeight maximumHeight size].
  change (Z.min (Z.max 22 0) QWIDGETSIZE_MAX) with 22.
  rewrite A5, A6, A7. repeat split.
  destruct (22 <? height (size s)) eqn:E; cbn; [lia|].
  apply Z.ltb_ge in E. lia.
Qed.

Lemma expand_true_geometry d s s' :
  expand (S d) true s = Returned s' ->
  let m := Z.min (Z.max (MaxHeight s) 0) QWIDGETSIZE_MAX in
  maximumHeight s' = m
  /\ size s' = mkSize (Z.max (width (OldSize s)) 0)
                 (Z.max (Z.min (height (OldSize s)) m) 0)
  /\ OldSize s' = OldSize s /\ MaxHeight s' = MaxHeight s.
Proof.
  intros H. rewrite expand_spec in H. injection H as <-. cbv zeta.
  pose proof (forcedAll_frame s) as (_ & _ & _ & _ & _ & _ & A7 & A8 & _).
  unfold resize, setMaximumHeight, set_geometry.
  cbn [OldSize MaxHeight maximumHeight size].
  rewrite A7, A8. done.
Qed.

(** Calls other than [setChecked] and a direct [expand] leave the
    geometry and the check state alone. *)
Lemma step_geometry_frame d op s s' :
  (forall b, op <> CallSetChecked b) -> viaSignal op = true ->
  step (S d) op s = Returned s' ->
  checked s' = checked s /\ toggled_expand s' = toggled_expand s
  /\ size s' = size s /\ maximumHeight s' = maximumHeight s
  /\ OldSize s' = OldSize s /\ MaxHeight s' = MaxHeight s.
Proof.
  intros H1 H2 H.
  destruct op as [b|b|show env| |c|i v]; cbn [step] in H.
  - by destruct (H1 b).
  - discriminate H2.
  - destruct (setVisible_spec d show env s) as (a & l & _ & _ & _ & E).
    rewrite E in H. injection H as <-. cbv zeta.
    destruct (negb (IsStateCreated s) && created a); [|done].
    match goal with
    | |- context [forcedAll ?x] =>
        pose proof (forcedAll_frame x)
          as (_ & F2 & F3 & _ & F5 & F6 & F7 & F8 & _)
    end.
    rewrite F2, F3, F5, F6, F7, F8. done.
  - by injection H as <-.
  - rewrite addChild_spec in H. cbv zeta in H. injection H as <-.
    destruct (isWidgetType c); [|done].
    by destruct (created (qattrs s)).
  - apply child_setVisible_shape in H as (c & c' & fv & _ & _ & -> & _).
    done.
Qed.

Lemma step_geometryKept d op s0 s s' :
  geometry_ok s0 -> viaSignal op = true ->
  geometryKept s0 s -> step (S d) op s = Returned s' ->
  geometryKept s0 s'.
Proof.
  intros (Gw & Gh & Gm) Hv (HT & G) H.
  destruct op as [b|b|show env| |c|i v];
    try (match type of H with
         | step _ ?o _ = _ =>
             assert (N : forall b0, o <> CallSetChecked b0)
               by (intros; discriminate)
         end;
         destruct (step_geometry_frame d _ s s' N Hv H)
           as (F1 & F2 & F3 & F4 & F5 & F6);
         unfold geometryKept; rewrite F1, F2, F3, F4, F5, F6; by split).
  cbn [step] in H. unfold setChecked in H.
  destruct (checkable s && negb (eqb b (checked s))) eqn:C;
    [|injection H as <-; by split].
  apply andb_prop in C as [_ C]. apply negb_true_iff in C.
  change (toggled_expand (set_checked b s)) with (toggled_expand s) in H.
  rewrite HT in H.
  destruct (expand_frame d b (set_checked b s))
    as (s1 & E & _ & F2 & F3 & _).
  rewrite E in H. injection H as <-.
  split; [by rewrite F3|]. rewrite F2. cbn [checked set_checked].
  destruct b.
  - destruct (checked s) eqn:Hch; [done|].
    destruct G as (G1 & G2 & G3 & G4).
    destruct (expand_true_geometry d _ _ E) as (M & Sz & _).
    cbn [OldSize MaxHeight set_checked] in M, Sz.
    rewrite Sz, M, G3, G4. unfold QWIDGETSIZE_MAX in *.
    split; [|lia]. destruct (size s0) as [w h]. cbn in *. f_equal; lia.
  - destruct (checked s) eqn:Hch; [|done].
    destruct G as (G1 & G2).
    destruct (expand_false_geometry d _ _ E) as (O & M & X & Y).
    cbn [size maximumHeight set_checked] in O, M.
    rewrite O, M, G1, G2. done.
Qed.

(** X5.  Toggling is a geometry round trip over any number of toggles:
    on a box with the connection of [init] in place, through every
    sequence of calls that reaches [expand] only through [toggled], the
    box has the size and the maximum height it started with whenever it
    is expanded, and is at most 22 high, with both recorded, whenever it
    is collapsed. *)
Theorem toggling_keeps_geometry d ops : forall s0 s s',
  geometry_ok s0 -> geometryKept s0 s ->
  forallb viaSignal ops = true ->
  run (S d) ops s = Returned s' ->
  geometryKept s0 s'.
Proof.
  induction ops as [|op ops IH]; intros s0 s s' G K V R.
  - cbn in R. by injection R as <-.
  - cbn [run] in R. unfold_monad. cbn in V.
    apply andb_prop in V as [V1 V2].
    destruct (step (S d) op s) as [s1| |] eqn:E; [|done|done].
    apply (IH s0 s1 s' G); [|exact V2|exact R].
    by eapply step_geometryKept.
Qed.

Lemma toggling_keeps_geometry_witness :
  geometry_ok constructedBox
  /\ geometryKept constructedBox constructedBox
  /\ exists s',
      run 1 [AddChild freshChild; ToolkitCreate; CallSetChecked false;
             CallSetVisible true ParentVisible; CallSetChecked false;
             CallSetChecked true; CallSetChecked false;
             ChildSetVisible 0 true; CallSetChecked true] constructedBox
      = Returned s'
      /\ geometryKept constructedBox s'.
Proof.
  assert (G : geometry_ok constructedBox).
  { unfold geometry_ok. cbn. unfold QWIDGETSIZE_MAX. lia. }
  assert (K : geometryKept constructedBox constructedBox).
  { split; [reflexivity|]. cbn. done. }
  split; [exact G|]. split; [exact K|].
  eexists. split; [vm_compute; reflexivity|].
  apply (toggling_keeps_geometry 0%nat
           [AddChild freshChild; ToolkitCreate; CallSetChecked false;
            CallSetVisible true ParentVisible; CallSetChecked false;
            CallSetChecked true; CallSetChecked false;
            ChildSetVisible 0 true; CallSetChecked true]
           constructedBox constructedBox);
    [exact G | exact K | reflexivity | vm_compute; reflexivity].
Defined.

(** X6.  [expand(false)] called twice in a row loses the geometry: the
    second call records the collapsed size and the maximum height 22, so
    the [expand(true)] that follows leaves the box with maximum height 22
    and at most 22 high, whatever it had before. *)
Theorem double_collapse_loses_geometry d s :
  exists s1 s2 s3,
    expand (S d) false s = Returned s1
    /\ expand (S d) false s1 = Returned s2
    /\ expand (S d) true s2 = Returned s3
    /\ MaxHeight s2 = 22
    /\ maximumHeight s3 = 22
    /\ height (size s3) <= 22.
Proof.
  destruct (expand_frame d false s) as (s1 & E1 & _).
  destruct (expand_frame d false s1) as (s2 & E2 & _).
  destruct (expand_frame d true s2) as (s3 & E3 & _).
  exists s1, s2, s3.
  destruct (expand_false_geometry d _ _ E1) as (_ & _ & M1 & _).
  destruct (expand_false_geometry d _ _ E2) as (_ & M2 & _ & _).
  destruct (expand_true_geometry d _ _ E3) as (M3 & S3 & _).
  cbv zeta in M3, S3. rewrite M2, M1 in M3, S3.
  change (Z.min (Z.max 22 0) QWIDGETSIZE_MAX) with 22 in M3, S3.
  repeat split; try done.
  - by rewrite M2.
  - rewrite S3. cbn. lia.
Qed.

Lemma forced_widget b c : isWidgetType (forced b c) = isWidgetType c.
Proof. unfold forced. by destruct (isWidgetType c) eqn:E. Qed.

Lemma forced_forced b b' c : forced b (forced b' c) = forced b c.
Proof.
  unfold forced, explicitlyHidden.
  destruct c as [w [cr hd ex] [[|]|] fl]; cbn; destruct w; done.
Qed.

(** X7.  What [expand] does to the children does not depend on its
    argument, only on the check state and the recorded properties:
    [expand(true)] and [expand(false)] leave the same children, and a
    second [expand] changes none of them. *)
Theorem expand_children_ignore_argument d b b' s :
  exists s1 s2 s3,
    expand (S d) b s = Returned s1
    /\ expand (S d) b' s = Returned s2
    /\ children s1 = children s2
    /\ expand (S d) b' s1 = Returned s3
    /\ children s3 = children s1.
Proof.
  destruct (expand_frame d b s) as (s1 & E1 & _ & C1 & _ & A1 & _ & H1).
  destruct (expand_frame d b' s) as (s2 & E2 & _ & _ & _ & _ & _ & H2).
  destruct (expand_frame d b' s1) as (s3 & E3 & _ & _ & _ & _ & _ & H3).
  exists s1, s2, s3. repeat split; try done.
  - by rewrite H1, H2.
  - rewrite H3, A1. unfold collapsed. rewrite C1. fold (collapsed s).
    destruct (testAttribute WA_WState_Created (qattrs s)); [|done].
    rewrite H1, map_map. apply map_ext. intros c. apply forced_forced.
Qed.

(** X8.  A child shown by the application while the box is collapsed is
    forced back to hidden, but the request is remembered: in a created,
    collapsed box, [setVisible(true)] on a hidden widget child leaves it
    hidden with [visibilityToParent] true and [WA_WState_ExplicitShowHide]
    cleared, and the next expansion of the box shows it (comment of
    lines 420-428). *)
Theorem show_while_collapsed_is_deferred d i c s :
  ForcingVisibility s = false ->
  testAttribute WA_WState_Created (qattrs s) = true ->
  checkable s = true -> toggled_expand s = true -> checked s = false ->
  children s !! i = Some c -> isWidgetType c = true ->
  filtered c = true -> isHidden c = true ->
  exists s1 c1 s2 c2,
    QWidget_setVisible (eventFilter (S d)) i true s = Returned s1
    /\ children s1 !! i = Some c1
    /\ isHidden c1 = true
    /\ visibilityToParent c1 = Some true
    /\ testAttribute WA_WState_ExplicitShowHide (attrs c1) = false
    /\ setChecked (S d) true s1 = Returned s2
    /\ children s2 !! i = Some c2
    /\ isHidden c2 = false.
Proof.
  intros HF Hcr Hck HT Hch Hc HW Hfl Hh.
  assert (Hlt : (i < length (children s))%nat) by (by eapply lookup_lt_Some).
  set (c2 := setProperty true
               (set_attrs (mkAttrs (created (attrs c)) false true) c)).
  set (s1 := set_ForcingVisibility false
               (set_child i (forced (collapsed s) c2) s)).
  assert (E1 : QWidget_setVisible (eventFilter (S d)) i true s = Returned s1).
  { rewrite (child_setVisible_spec d i true c) by done.
    unfold isHidden in Hh. rewrite Hh, Hfl, Hcr. cbn [negb eqb andb].
    by rewrite andb_false_r. }
  assert (L1 : children s1 !! i = Some (forced (collapsed s) c2)).
  { subst s1. cbn. by apply list_lookup_insert_eq. }
  assert (W2 : isWidgetType c2 = true) by done.
  destruct (expand_frame d true (set_checked true s1))
    as (s2 & E2 & _ & _ & _ & _ & _ & C2).
  change (testAttribute WA_WState_Created (qattrs (set_checked true s1)))
    with (testAttribute WA_WState_Created (qattrs s)) in C2.
  rewrite Hcr in C2.
  exists s1, (forced (collapsed s) c2), s2,
    (forced false (forced (collapsed s) c2)).
  split; [exact E1|]. split; [exact L1|].
  split; [rewrite isHidden_forced by done; unfold collapsed; by rewrite Hch|].
  split; [by rewrite forced_property|].
  split; [unfold forced; by rewrite W2|].
  split.
  - unfold setChecked.
    change (checkable s1) with (checkable s).
    change (checked s1) with (checked s).
    change (toggled_expand (set_checked true s1)) with (toggled_expand s).
    rewrite Hck, Hch, HT. exact E2.
  - split.
    + rewrite C2, lookup_map.
      change (children (set_checked true s1)) with (children s1).
      by rewrite L1.
    + rewrite forced_forced, isHidden_forced by done. done.
Qed.

Lemma show_while_collapsed_is_deferred_witness :
  let s := exampleBox true false [forced true plainChild] in
  exists s1 c1 s2 c2,
    QWidget_setVisible (eventFilter 1) 0 true s = Returned s1
    /\ children s1 !! 0%nat = Some c1
    /\ isHidden c1 = true
    /\ visibilityToParent c1 = Some true
    /\ testAttribute WA_WState_ExplicitShowHide (attrs c1) = false
    /\ setChecked 1 true s1 = Returned s2
    /\ children s2 !! 0%nat = Some c2
    /\ isHidden c2 = false.
Proof.
  cbv zeta.
  exact (show_while_collapsed_is_deferred 0%nat 0%nat (forced true plainChild)
           (exampleBox true false [forced true plainChild])
           eq_refl eq_refl eq_refl eq_refl eq_refl eq_refl eq_refl eq_refl
           eq_refl).
Defined.

Lemma keptHidden_run d i ops : forall s s',
  keptHidden i s ->
  Forall (fun op => op <> ChildSetVisible i true) ops ->
  run (S d) ops s = Returned s' ->
  keptHidden i s'.
Proof.
  induction ops as [|op ops IH]; intros s s' K F R.
  - cbn in R. by injection R as <-.
  - cbn [run] in R. unfold_monad.
    destruct (step (S d) op s) as [s1| |] eqn:E; [|done|done].
    apply Forall_cons in F as [F1 F2].
    apply (IH s1 s'); [|exact F2|exact R].
    by eapply keptHidden_step.
Qed.

(** X9.  A widget that was explicitly hidden before it was added to the
    box is treated as hidden by the user (comment of lines 363-370): it
    is recorded with [visibilityToParent] false on [ChildAdded], and it
    stays hidden through every later call, expansions included, until it
    is shown explicitly. *)
Theorem hidden_before_added_stays_hidden d c ops s s' :
  isWidgetType c = true ->
  testAttribute WA_WState_ExplicitShowHide (attrs c) = true ->
  testAttribute WA_WState_Hidden (attrs c) = true ->
  Forall (fun op => op <> ChildSetVisible (length (children s)) true) ops ->
  run (S d) (AddChild c :: ops) s = Returned s' ->
  keptHidden (length (children s)) s'.
Proof.
  intros HW He Hh F R. cbn [run step] in R. unfold_monad.
  rewrite addChild_spec in R. cbv zeta in R. rewrite HW, He, Hh in R.
  cbn [andb] in R.
  set (c1 := installEventFilter (setProperty false c)) in R.
  assert (K1 : visibilityToParent c1 = Some false /\ isHidden c1 = true)
    by (split; [done | exact Hh]).
  eapply keptHidden_run; [|exact F|exact R].
  destruct (testAttribute WA_WState_Created (qattrs s)).
  - exists (forced (collapsed s) c1). split.
    + cbn. by apply list_lookup_middle.
    + destruct K1. by apply forced_keeps.
  - exists c1. split; [|exact K1]. cbn. by apply list_lookup_middle.
Qed.

Lemma hidden_before_added_stays_hidden_witness :
  exists s',
    run 1 [AddChild hiddenBeforeAdded; CallSetVisible true ParentVisible;
           CallSetChecked false; CallSetChecked true;
           ChildSetVisible 0 false; CallExpand true] constructedBox
    = Returned s'
    /\ keptHidden 0 s'.
Proof.
  eexists. split; [vm_compute; reflexivity|].
  apply (hidden_before_added_stays_hidden 0%nat hiddenBeforeAdded
           [CallSetVisible true ParentVisible;
            CallSetChecked false; CallSetChecked true;
            ChildSetVisible 0 false; CallExpand true] constructedBox);
    [reflexivity | reflexivity | reflexivity | | vm_compute; reflexivity].
  repeat constructor; discriminate.
Defined.

(** X10.  The proxy style never lets the base style draw the check box
    of a group box: it asks for the down arrow when the box is checked
    and for the right arrow when it is collapsed.  Every other element,
    and every element of a widget that is not a group box, is passed on
    as it came. *)
Theorem drawPrimitive_replaces_checkbox :
  (forall pe groupBox,
      drawPrimitive pe (Some groupBox) <> PE_IndicatorCheckBox)
  /\ (forall groupBox,
        drawPrimitive PE_IndicatorCheckBox (Some groupBox)
        = if collapsed groupBox then PE_IndicatorArrowRight
          else PE_IndicatorArrowDown)
  /\ (forall pe widget,
        pe <> PE_IndicatorCheckBox -> drawPrimitive pe widget = pe)
  /\ (forall pe, drawPrimitive pe None = pe)
  /\ (forall pe widget,
        drawPrimitive (drawPrimitive pe widget) widget
        = drawPrimitive pe widget).
Proof.
  split; [|split; [|split; [|split]]].
  - intros pe g. destruct pe; cbn; try done. by destruct (checked g).
  - intros g. unfold collapsed. cbn. by destruct (checked g).
  - intros pe w H. by destruct pe.
  - intros pe. by destruct pe.
  - intros pe w. destruct pe; cbn; try done.
    destruct w as [g|]; [|done]. by destruct (checked g).
Qed.

Lemma drawPrimitive_replaces_checkbox_witness :
  PE_Other 7 <> PE_IndicatorCheckBox
  /\ drawPrimitive (PE_Other 7) (Some constructedBox) = PE_Other 7
  /\ drawPrimitive PE_IndicatorCheckBox (Some constructedBox)
     = PE_IndicatorArrowDown.
Proof.
  split; [discriminate|]. split.
  - apply (proj1 (proj2 (proj2 drawPrimitive_replaces_checkbox))).
    discriminate.
  - exact (proj1 (proj2 drawPrimitive_replaces_checkbox) constructedBox).
Defined.

(** X11.  The mask [!QStyle::SC_GroupBoxCheckBox] of line 341 is zero,
    so the style option handed to the hit test has no active
    sub-control at all: what [mouseReleaseEvent] does is the same for
    any two style options that agree on [subControls], whatever their
    active sub-controls. *)
Theorem mouseRelease_ignores_active_subcontrols
    (init1 init2 : State -> QStyleOptionGroupBox)
    (hitTestComplexControl : QStyleOptionGroupBox -> QPoint -> State -> Z)
    (d : nat) (event : QMouseEvent) (s : State) :
  subControls (init1 s) = subControls (init2 s) ->
  mouseReleaseEvent init1 hitTestComplexControl d event s
  = mouseReleaseEvent init2 hitTestComplexControl d event s.
Proof.
  intros H. unfold mouseReleaseEvent.
  destruct (negb (MouseButton_eqb (button event) LeftButton)); [done|].
  cbv zeta. by rewrite !activeSubControls_cleared, H.
Qed.

Lemma mouseRelease_ignores_active_subcontrols_witness :
  let hit := fun (o : QStyleOptionGroupBox) (p : QPoint) (_ : State) =>
               if activeSubControls o =? 0 then SC_GroupBoxLabel
               else SC_GroupBoxFrame in
  let e := mkMouse LeftButton (mkPoint 5 5) true in
  mouseReleaseEvent (fun _ => mkOption 15 1) hit 1 e constructedBox
  = mouseReleaseEvent (fun _ => mkOption 15 14) hit 1 e constructedBox.
Proof.
  cbv zeta.
  apply (mouseRelease_ignores_active_subcontrols
           (fun _ => mkOption 15 1) (fun _ => mkOption 15 14)).
  reflexivity.
Defined.

(** X12.  Two clicks on the label are a round trip.  On a created,
    expanded, checkable box with the connection of [init] in place, a
    left release on the label collapses the box: it is unchecked, at
    most 22 high, and every widget child is hidden.  A second one
    expands it: it is checked, has its size and maximum height again,
    and a widget child is hidden exactly when its [visibilityToParent]
    is valid and false. *)
Theorem click_twice_round_trip
    (initStyleOption : State -> QStyleOptionGroupBox)
    (hitTestComplexControl : QStyleOptionGroupBox -> QPoint -> State -> Z)
    (d : nat) (event : QMouseEvent) (s : State) :
  button event = LeftButton ->
  (forall o st, hitTestComplexControl o (pos event) st = SC_GroupBoxLabel) ->
  checkable s = true -> toggled_expand s = true -> checked s = true ->
  testAttribute WA_WState_Created (qattrs s) = true ->
  geometry_ok s ->
  exists s1 s2,
    mouseReleaseEvent initStyleOption hitTestComplexControl (S d) event s
    = Returned (event, s1)
    /\ mouseReleaseEvent initStyleOption hitTestComplexControl (S d) event s1
       = Returned (event, s2)
    /\ checked s1 = false
    /\ maximumHeight s1 = 22 /\ height (size s1) <= 22
    /\ (forall i c, children s1 !! i = Some c -> isWidgetType c = true ->
                    isHidden c = true)
    /\ checked s2 = true
    /\ size s2 = size s /\ maximumHeight s2 = maximumHeight s
    /\ (forall i c, children s !! i = Some c -> isWidgetType c = true ->
          exists c2, children s2 !! i = Some c2
                     /\ isHidden c2 = explicitlyHidden c).
Proof.
  intros Hb Hhit Hck HT Hch Hcr (Gw & Gh & Gm).
  assert (Rel : forall st,
             checkable st = true -> toggled_expand st = true ->
             mouseReleaseEvent initStyleOption hitTestComplexControl (S d) event st
             = (s' ← expand (S d) (negb (checked st))
                       (set_checked (negb (checked st)) st);
                mret (event, s'))).
  { intros st C T. unfold mouseReleaseEvent. rewrite Hb.
    cbn [MouseButton_eqb negb]. cbv zeta. rewrite Hhit, C. cbn.
    unfold setChecked. rewrite C.
    replace (negb (eqb (negb (checked st)) (checked st))) with true
      by (by destruct (checked st)).
    cbn [andb].
    change (toggled_expand (set_checked (negb (checked st)) st))
      with (toggled_expand st).
    by rewrite T. }
  destruct (expand_frame d false (set_checked false s))
    as (s1 & E1 & A1 & A2 & A3 & A4 & _ & A6).
  destruct (expand_false_geometry d _ _ E1) as (O1 & M1 & X1 & Y1).
  cbn in A1, A2, A3, A4, A6, O1, M1.
  pose proof Hcr as Hcr'. cbn in Hcr'.
  rewrite Hcr' in A6.
  destruct (expand_frame d true (set_checked true s1))
    as (s2 & E2 & _ & B2 & _ & _ & _ & B6).
  destruct (expand_true_geometry d _ _ E2) as (M2 & S2 & _).
  cbn in B2, B6, M2, S2. rewrite A4, Hcr' in B6.
  exists s1, s2.
  split; [rewrite (Rel s Hck HT), Hch; cbn [negb]; unfold_monad; by rewrite E1|].
  split.
  { rewrite (Rel s1) by congruence. rewrite A2. cbn [negb].
    unfold_monad. by rewrite E2. }
  split; [done|]. split; [done|]. split; [done|].
  split.
  { intros i c Hc HW. rewrite A6, lookup_map in Hc.
    destruct (children s !! i) as [c0|] eqn:Hc0; [|done].
    cbn in Hc. injection Hc as <-.
    assert (W0 : isWidgetType c0 = true) by (by rewrite forced_widget in HW).
    rewrite isHidden_forced by done. apply orb_true_r. }
  split; [done|].
  split.
  { rewrite S2, M1, O1. unfold QWIDGETSIZE_MAX in *.
    destruct (size s) as [w h]. cbn in *. f_equal; lia. }
  split.
  { rewrite M2, M1. unfold QWIDGETSIZE_MAX in *. lia. }
  intros i c Hc HW.
  exists (forced false (forced true c)).
  split.
  - rewrite B6, lookup_map, A6, lookup_map, Hc. done.
  - rewrite forced_forced, isHidden_forced by done. apply orb_false_r.
Qed.

Lemma click_twice_round_trip_witness :
  let s := exampleBox true true [plainChild; userHiddenChild] in
  let e := mkMouse LeftButton (mkPoint 5 5) true in
  let hit := fun (_ : QStyleOptionGroupBox) (_ : QPoint) (_ : State) =>
               SC_GroupBoxLabel in
  geometry_ok s
  /\ exists s1 s2,
      mouseReleaseEvent (fun _ => mkOption 15 0) hit 1 e s = Returned (e, s1)
      /\ mouseReleaseEvent (fun _ => mkOption 15 0) hit 1 e s1 = Returned (e, s2)
      /\ checked s1 = false /\ checked s2 = true
      /\ size s2 = size s /\ maximumHeight s2 = maximumHeight s.
Proof.
  cbv zeta.
  assert (G : geometry_ok (exampleBox true true [plainChild; userHiddenChild])).
  { unfold geometry_ok. cbn. unfold QWIDGETSIZE_MAX. lia. }
  split; [exact G|].
  destruct (click_twice_round_trip
              (fun _ => mkOption 15 0)
              (fun (_ : QStyleOptionGroupBox) (_ : QPoint) (_ : State) =>
                 SC_GroupBoxLabel)
              0%nat (mkMouse LeftButton (mkPoint 5 5) true)
              (exampleBox true true [plainChild; userHiddenChild])
              eq_refl (fun _ _ => eq_refl) eq_refl eq_refl eq_refl eq_refl G)
    as (s1 & s2 & E1 & E2 & C1 & _ & _ & _ & C2 & S2 & M2 & _).
  exists s1, s2. done.
Defined.

(** X13.  A child hidden by the application stays hidden when the box
    is expanded again (comment of lines 426-428): after [setVisible(false)]
    on a widget child that carries the filter, made from outside the box,
    the child is hidden with [visibilityToParent] false, and it stays so
    through every later call, expansions included, until it is shown
    explicitly. *)
Theorem hide_is_remembered d i c ops s s' :
  ForcingVisibility s = false ->
  children s !! i = Some c -> isWidgetType c = true -> filtered c = true ->
  testAttribute WA_WState_ExplicitShowHide (attrs c)
  && testAttribute WA_WState_Hidden (attrs c) = false ->
  Forall (fun op => op <> ChildSetVisible i true) ops ->
  run (S d) (ChildSetVisible i false :: ops) s = Returned s' ->
  keptHidden i s'.
Proof.
  intros HF Hc HW Hfl Hne F R. cbn [run step] in R. unfold_monad.
  rewrite (child_setVisible_spec d i false c) in R by done.
  cbn [negb] in R.
  replace (eqb (testAttribute WA_WState_Hidden (attrs c)) true)
    with (testAttribute WA_WState_Hidden (attrs c)) in R
    by (by destruct (testAttribute WA_WState_Hidden (attrs c))).
  rewrite Hne, Hfl in R. cbv zeta in R.
  eapply keptHidden_run; [|exact F|exact R].
  exists (setProperty false
            (set_attrs (mkAttrs (created (attrs c)) true true) c)).
  split; [|split; reflexivity].
  cbn. apply list_lookup_insert_eq. by eapply lookup_lt_Some.
Qed.

Lemma hide_is_remembered_witness :
  let s := exampleBox true false [forced true plainChild] in
  exists s',
    run 1 [ChildSetVisible 0 false; CallSetChecked true;
           CallSetVisible false ParentVisible;
           CallSetVisible true ParentVisible; CallSetChecked false;
           CallSetChecked true] s = Returned s'
    /\ keptHidden 0 s'.
Proof.
  cbv zeta. eexists. split; [vm_compute; reflexivity|].
  apply (hide_is_remembered 0%nat 0%nat (forced true plainChild)
           [CallSetChecked true; CallSetVisible false ParentVisible;
            CallSetVisible true ParentVisible; CallSetChecked false;
            CallSetChecked true]
           (exampleBox true false [forced true plainChild]));
    [reflexivity | reflexivity | reflexivity | reflexivity | reflexivity
    | | vm_compute; reflexivity].
  repeat constructor; discriminate.
Defined.

Lemma afterChildAdded_keeps w p c :
  isWidgetType (afterChildAdded w p c) = isWidgetType c
  /\ filtered (afterChildAdded w p c) = filtered c
  /\ visibilityToParent (afterChildAdded w p c) = visibilityToParent c.
Proof.
  unfold afterChildAdded.
  destruct w, p, (negb (testAttribute WA_WState_ExplicitShowHide (attrs c)));
    done.
Qed.

(** After [setChildVisibility] and the end of [setParent], a [show()] on
    the new child is never dropped as a repetition. *)
Lemma afterChildAdded_forced_show w p b c :
  isWidgetType c = true ->
  let y := afterChildAdded w p (forced b c) in
  testAttribute WA_WState_ExplicitShowHide (attrs y)
  && eqb (testAttribute WA_WState_Hidden (attrs y)) (negb true) = false.
Proof.
  intros HW. unfold afterChildAdded, forced, explicitlyHidden. rewrite HW.
  destruct c as [wt [cr hd ex] [[|]|] fl]; cbn; destruct w, p, b; done.
Qed.

Lemma insert_last (l : list Child) (x y : Child) :
  <[length l := y]> (l ++ [x]) = l ++ [y].
Proof.
  rewrite insert_app_r_alt by lia.
  replace (length l - length l)%nat with O by lia. done.
Qed.

Lemma tracks_filtered_widget l col c :
  filtered c = true ->
  (l = false \/ isHidden c = explicitlyHidden c || col) ->
  tracks l col c = true.
Proof.
  intros Hf H. unfold tracks. rewrite Hf.
  destruct (isWidgetType c); [|done]. cbn [negb orb andb].
  destruct H as [-> | H]; [done|].
  rewrite H, eqb_reflx. apply orb_true_r.
Qed.

(** X14.  A widget given to the box with [new QWidget(box)] and then
    shown follows the box: after the toolkit's [setParent], which
    delivers [ChildAdded] and then settles the child's
    [WA_WState_Hidden], and a [show()] of the child by the application,
    [boxInvariant] holds again, whether the box is visible, created or
    collapsed.  While the deferred pass of [setVisible] has not run yet,
    [setParent] alone keeps it. *)
Theorem new_widget_then_show_follows_the_box
    d wasCreated parentVisible c s :
  boxInvariant s = true -> isWidgetType c = true ->
  exists s1 s2,
    QWidget_setParent (S d) wasCreated parentVisible c s = Returned s1
    /\ QWidget_setVisible (eventFilter (S d)) (length (children s)) true s1
       = Returned s2
    /\ boxInvariant s2 = true
    /\ (IsStateCreated s = false -> boxInvariant s1 = true).
Proof.
  intros I HW.
  apply boxInvariant_spec in I as (HF & HT & HL & HC).
  set (n := length (children s)).
  set (c1 := installEventFilter
               (if testAttribute WA_WState_ExplicitShowHide (attrs c)
                   && testAttribute WA_WState_Hidden (attrs c)
                then setProperty false c else c)).
  assert (W1 : isWidgetType c1 = true).
  { subst c1.
    by destruct (testAttribute WA_WState_ExplicitShowHide (attrs c)
                 && testAttribute WA_WState_Hidden (attrs c)). }
  assert (Fl1 : filtered c1 = true) by done.
  assert (Hn : (n < length (children s ++ [c1]))%nat)
    by (rewrite length_app; cbn; subst n; lia).
  unfold QWidget_setParent. rewrite addChild_spec. cbv zeta.
  rewrite HW. fold c1. unfold_monad.
  destruct (testAttribute WA_WState_Created (qattrs s)) eqn:Hcr.
  - (* the box is created: the child has been through setChildVisibility *)
    set (x := forced (collapsed s) c1).
    set (y := afterChildAdded wasCreated parentVisible x).
    assert (Wx : isWidgetType x = true) by (subst x; by rewrite forced_widget).
    assert (Fx : filtered x = true) by (subst x; unfold forced; by rewrite W1).
    destruct (afterChildAdded_keeps wasCreated parentVisible x) as (Wy & Fy & _).
    fold y in Wy, Fy. rewrite Wx in Wy. rewrite Fx in Fy.
    cbn [children set_ForcingVisibility set_children].
    fold n. rewrite list_lookup_middle by done.
    set (s1 := set_child n _ _).
    assert (L1 : children s1 !! n = Some y).
    { subst s1. cbn. apply list_lookup_insert_eq.
      rewrite length_app. cbn. subst n. lia. }
    assert (C1 : children s1 = children s ++ [y]).
    { subst s1 n. cbn. apply insert_last. }
    set (z := forced (collapsed s)
                (setProperty true
                   (set_attrs (mkAttrs (created (attrs y)) false true) y))).
    exists s1, (set_ForcingVisibility false (set_child n z s1)).
    split; [done|]. split.
    { rewrite (child_setVisible_spec d n true y s1) by done.
      pose proof (afterChildAdded_forced_show wasCreated parentVisible
                    (collapsed s) c1 W1) as NS.
      cbv zeta in NS. fold x in NS. fold y in NS. rewrite NS.
      cbv zeta. rewrite Fy.
      change (testAttribute WA_WState_Created (qattrs s1))
        with (testAttribute WA_WState_Created (qattrs s)).
      by rewrite Hcr. }
    split.
    + apply boxInvariant_spec.
      cbn [ForcingVisibility set_ForcingVisibility].
      split; [done|]. split; [exact HT|]. split; [intros _; exact Hcr|].
      change (children (set_ForcingVisibility false (set_child n z s1)))
        with (<[n:=z]> (children s1)).
      rewrite C1. subst n. rewrite insert_last.
      apply Forall_app. split; [exact HC|].
      constructor; [|constructor].
      subst z. apply (tracks_forced false false).
      unfold tracks. cbn. by rewrite Fy, orb_true_r.
    + intros L. apply boxInvariant_spec.
      split; [done|]. split; [exact HT|]. split; [intros _; exact Hcr|].
      rewrite C1.
      apply Forall_app. split; [exact HC|].
      constructor; [|constructor].
      change (IsStateCreated s1) with (IsStateCreated s). rewrite L.
      apply tracks_filtered_widget; [exact Fy | by left].
  - (* the box is not created: the latch is clear *)
    assert (L : IsStateCreated s = false).
    { destruct (IsStateCreated s); [|done]. discriminate (HL eq_refl). }
    set (y := afterChildAdded wasCreated parentVisible c1).
    destruct (afterChildAdded_keeps wasCreated parentVisible c1) as (Wy & Fy & _).
    fold y in Wy, Fy. rewrite W1 in Wy. rewrite Fl1 in Fy.
    cbn [children set_children].
    fold n. rewrite list_lookup_middle by done.
    set (s1 := set_child n _ _).
    assert (L1 : children s1 !! n = Some y).
    { subst s1. cbn. apply list_lookup_insert_eq.
      rewrite length_app. cbn. subst n. lia. }
    assert (C1 : children s1 = children s ++ [y]).
    { subst s1 n. cbn. apply insert_last. }
    assert (I1 : boxInvariant s1 = true).
    { apply boxInvariant_spec.
      split; [exact HF|]. split; [exact HT|].
      split; [intros L'; change (IsStateCreated s1) with (IsStateCreated s) in L';
              congruence|].
      rewrite C1. apply Forall_app. split; [exact HC|].
      constructor; [|constructor].
      change (IsStateCreated s1) with (IsStateCreated s). rewrite L.
      apply tracks_filtered_widget; [exact Fy | by left]. }
    destruct (QWidget_setVisible (eventFilter (S d)) n true s1)
      as [r| |] eqn:E.
    + exists s1, r. split; [done|]. split; [done|].
      split; [|by intros].
      by apply (step_invariant d (ChildSetVisible n true) s1 r).
    + by rewrite (child_setVisible_spec d n true y s1) in E.
    + by rewrite (child_setVisible_spec d n true y s1) in E.
Qed.

Lemma new_widget_then_show_follows_the_box_witness :
  let s := exampleBox true true [plainChild] in
  boxInvariant s = true
  /\ exists s1 s2,
      QWidget_setParent 1 false true freshChild s = Returned s1
      /\ QWidget_setVisible (eventFilter 1) 1 true s1 = Returned s2
      /\ boxInvariant s1 = false
      /\ boxInvariant s2 = true.
Proof.
  cbv zeta. split; [reflexivity|].
  destruct (new_widget_then_show_follows_the_box 0%nat false true freshChild
              (exampleBox true true [plainChild]) eq_refl eq_refl)
    as (s1 & s2 & E1 & E2 & I2 & _).
  exists s1, s2. split; [exact E1|]. split; [exact E2|].
  split; [|exact I2].
  vm_compute in E1. injection E1 as <-. reflexivity.
Defined.

End GroupBoxRuns.
